(** * Marine Mentors backend: a shallow embedding of the Express handlers

    The repository holds three revisions of one Express application:
    - [Minimal]: [src/server.js];
    - [Basic]:   the first document of [src/unnamed/part_000];
    - [Full]:    the second document of [src/unnamed/part_000] (the
                 "richer variant" of the specification).

    Each handler is an [async (req, res) => { try { ... } catch { ... } }]
    arrow function.  It is embedded as a function from a request and a
    [World] to a [Response] and a new [World].  The [World] carries what
    the handlers reach through ambient globals: the process configuration,
    the database behind [pool], the clock, a schedule of store faults and
    a trace of the external calls that were made.

    Scope of the model.
    - A body field is [undefined] or any JSON value; a JSON number is
      taken as an integer.
    - The body is taken as [express.json()] parsed it: a request whose
      body does not parse never reaches a route and is not modelled.
    - The [users.id] and [courses.id] columns are integers.
    - [bcryptjs], [jsonwebtoken], the parameter serialisation of
      node-postgres and the Express path matcher are interfaces
      ([Crypto], [Framework]); nothing is assumed about them except
      where a theorem says so.
    - [console.log] and [console.error] are not modelled. *)

From Stdlib Require Import ZArith List String Ascii Bool Lia DecimalString.
From Stdlib Require Import Permutation Sorted.
Import ListNotations.

Set Warnings "-register-all".

Local Open Scope Z_scope.
Local Open Scope string_scope.

(** ** JavaScript and JSON values *)

(** What [res.json] serialises.  A member whose value is [undefined] is
    dropped by [JSON.stringify]; such members are left out of [VObj]. *)
Inductive Value : Type :=
| VNull
| VBool (b : bool)
| VNum (n : Z)
| VStr (s : string)
| VDate (t : Z)
| VArr (items : list Value)
| VObj (members : list (string * Value)).

(** A field of [req.body]: absent, or the JSON value [express.json()]
    parsed. *)
Inductive Field : Type :=
| FUndefined
| FNull
| FStr (s : string)
| FNum (n : Z)
| FBool (b : bool)
| FArr (items : list Value)
| FObj (members : list (string * Value)).

(** JavaScript truthiness, as used by [!fullName], [!email], ...:
    [undefined], [null], the empty string, [0] and [false] are falsy;
    every array and every object is truthy. *)
Definition truthy (f : Field) : bool :=
  match f with
  | FUndefined => false
  | FNull => false
  | FStr s => negb (s =? "")
  | FNum n => negb (n =? 0)%Z
  | FBool b => b
  | FArr _ => true
  | FObj _ => true
  end.

Definition typeof (f : Field) : string :=
  match f with
  | FUndefined => "undefined"
  | FNull => "object"
  | FStr _ => "string"
  | FNum _ => "number"
  | FBool _ => "boolean"
  | FArr _ => "object"
  | FObj _ => "object"
  end.

Record JsError : Type := mkJsError { message : string; stack : string }.

Definition Error (msg : string) : JsError :=
  {| message := msg; stack := "Error: " ++ msg |}.

(** [members] of an object literal, with the [key: undefined] case. *)
Definition opt_member (key : string) (v : option Value) : list (string * Value) :=
  match v with
  | Some x => [(key, x)]
  | None => []
  end.

Fixpoint get (key : string) (members : list (string * Value)) : option Value :=
  match members with
  | [] => None
  | (k, v) :: rest => if k =? key then Some v else get key rest
  end.

Definition keys (members : list (string * Value)) : list string :=
  map fst members.

Definition member (key : string) (v : Value) : option Value :=
  match v with
  | VObj ms => get key ms
  | _ => None
  end.

(** ** HTTP requests and responses *)

Inductive Method : Type := GET | HEAD | POST | PUT | PATCH | DELETE | OPTIONS.

Record Body : Type := mkBody {
  fullName : Field;
  email : Field;
  phone : Field;
  classLevel : Field;
  password : Field
}.

Record Request : Type := mkRequest {
  method : Method;
  path : string;                   (* req.path: no query string *)
  originalUrl : string;
  authorization : option string;   (* req.headers.authorization *)
  body : Body
}.

Record Response : Type := mkResponse { status : Z; json : Value }.

(** [res.status(code).json({...})] *)
Definition reply (code : Z) (members : list (string * Value)) : Response :=
  {| status := code; json := VObj members |}.

(** [res.json({...})]: the status stays at Express's default, 200. *)
Definition reply_ok (members : list (string * Value)) : Response :=
  reply 200 members.

Definition error_of (r : Response) : option Value := member "error" (json r).

(** ** The store *)

(** A row of [users].  Text columns are nullable; which of them the real
    table declares NOT NULL is part of the schema, which the repository
    does not contain. *)
Record UserRow : Type := mkUserRow {
  user_id : Z;
  full_name : option string;
  user_email : option string;
  user_phone : option string;
  class_level : option string;
  password_hash : option string;
  registration_date : option Z;
  is_active : option bool;
  trial_used : option bool
}.

(** A row of [courses]: the two columns the queries name, and the
    remaining ("descriptive") columns as they appear in the row object. *)
Record CourseRow : Type := mkCourseRow {
  course_id : Z;
  course_is_active : option bool;
  course_columns : list (string * Value)
}.

(** The column defaults of [users].  The [CREATE TABLE] statement is not
    part of the repository, so they are a parameter of the world.
    [default_registration_date] receives the store's current time. *)
Record Defaults : Type := mkDefaults {
  default_registration_date : Z -> option Z;
  default_is_active : option bool;
  default_trial_used : option bool
}.

(** The database: the two tables, the sequence behind [users.id], and
    the names of the tables of schema [public], which is what the
    connectivity test reads from [information_schema.tables].  A query on
    a table that is not there is one of the rejections that the fault
    schedule of the world stands for. *)
Record Db : Type := mkDb {
  users : list UserRow;
  courses : list CourseRow;
  users_id_seq : Z;
  public_tables : list string
}.

Record Config : Type := mkConfig {
  env_JWT_SECRET : option string;   (* process.env.JWT_SECRET *)
  NODE_ENV : option string          (* process.env.NODE_ENV *)
}.

(** [process.env.JWT_SECRET || 'marine_mentors_secret_2025'] *)
Definition JWT_SECRET (c : Config) : string :=
  match env_JWT_SECRET c with
  | Some s => if s =? "" then "marine_mentors_secret_2025" else s
  | None => "marine_mentors_secret_2025"
  end.

(** The SQL statements that occur in the three sources. *)
Inductive Sql : Type :=
| SelectNow
| SelectUsersTable
| SelectUserIdByEmail
| InsertUser
| InsertUserFull
| SelectUserByEmail
| SelectActiveUserByEmail
| SelectActiveCourses
| SelectProfileById
| SelectAllUsers.

(** Calls that leave the handler. *)
Inductive Event : Type :=
| EvQuery (q : Sql)
| EvBcryptHash
| EvBcryptCompare
| EvJwtSign
| EvJwtVerify.

(** [faults] schedules the outcome of the coming calls of [pool.query]:
    [Some e] makes the call reject with [e], [None] lets it run.  Past
    the end of the schedule every call runs.  A connection that drops and
    a constraint of the table that an INSERT violates are both such
    rejections.  [now] is the one clock of the model, read by [NOW()] in
    the store and by [jsonwebtoken] in the process; it moves only between
    requests.  [trace] lists the external calls made so far, oldest
    first. *)
Record World : Type := mkWorld {
  config : Config;
  defaults : Defaults;
  db : Db;
  now : Z;
  faults : list (option JsError);
  trace : list Event
}.

Definition set_db (d : Db) (w : World) : World :=
  {| config := config w; defaults := defaults w; db := d; now := now w;
     faults := faults w; trace := trace w |}.

Definition set_faults (fs : list (option JsError)) (w : World) : World :=
  {| config := config w; defaults := defaults w; db := db w; now := now w;
     faults := fs; trace := trace w |}.

Definition set_now (t : Z) (w : World) : World :=
  {| config := config w; defaults := defaults w; db := db w; now := t;
     faults := faults w; trace := trace w |}.

Definition record_event (e : Event) (w : World) : World :=
  {| config := config w; defaults := defaults w; db := db w; now := now w;
     faults := faults w; trace := trace w ++ [e] |}.

(** The fault, if any, that the next [pool.query] will meet. *)
Definition next_fault (w : World) : option JsError :=
  match faults w with
  | Some e :: _ => Some e
  | _ => None
  end.

(** ** A state and exception monad for handler bodies *)

Definition Exec (A : Type) : Type := World -> (JsError + A) * World.

Definition ret {A : Type} (a : A) : Exec A := fun w => (inr a, w).

Definition throw {A : Type} (e : JsError) : Exec A := fun w => (inl e, w).

Definition bind {A B : Type} (c : Exec A) (k : A -> Exec B) : Exec B :=
  fun w =>
    match c w with
    | (inl e, w') => (inl e, w')
    | (inr a, w') => k a w'
    end.

Declare Scope exec_scope.
Delimit Scope exec_scope with exec.
Notation "x <- c ;; k" := (bind c (fun x => k))
  (at level 61, c at next level, right associativity) : exec_scope.
Local Open Scope exec_scope.

Definition emit (e : Event) : Exec unit :=
  fun w => (inr tt, record_event e w).

(** [try { body } catch (error) { handler }], where every handler of the
    sources only builds a response from the error. *)
Definition try_catch (body : Exec Response) (handler : World -> JsError -> Response)
  : World -> Response * World :=
  fun w =>
    match body w with
    | (inr r, w') => (r, w')
    | (inl e, w') => (handler w' e, w')
    end.

(** [await pool.query(sql, params)]: the statement is logged, the fault
    schedule is consulted, and only then does [run] read or change the
    database. *)
Definition pool_query {A : Type} (q : Sql) (run : World -> A * Db) : Exec A :=
  fun w =>
    let w1 := record_event (EvQuery q) w in
    match faults w1 with
    | Some e :: rest => (inl e, set_faults rest w1)
    | None :: rest =>
        let '(a, d) := run w1 in (inr a, set_db d (set_faults rest w1))
    | [] =>
        let '(a, d) := run w1 in (inr a, set_db d w1)
    end.

(** A read-only statement. *)
Definition reading {A : Type} (f : Db -> A) : World -> A * Db :=
  fun w => (f (db w), db w).

(** ** SQL, as far as the statements of the sources need it *)

(** [column = $1] on a text column: never true when either side is NULL. *)
Definition eq_text (col param : option string) : bool :=
  match col, param with
  | Some a, Some b => a =? b
  | _, _ => false
  end.

Definition eq_id (col : Z) (param : option Z) : bool :=
  match param with
  | Some i => (col =? i)%Z
  | None => false
  end.

(** [is_active = true] *)
Definition is_true (b : option bool) : bool :=
  match b with
  | Some true => true
  | _ => false
  end.

(** [SELECT id FROM users WHERE email = $1] *)
Definition select_id_by_email (e : option string) (d : Db) : list Z :=
  map user_id (filter (fun u => eq_text (user_email u) e) (users d)).

(** [SELECT * FROM users WHERE email = $1] *)
Definition select_user_by_email (e : option string) (d : Db) : list UserRow :=
  filter (fun u => eq_text (user_email u) e) (users d).

(** [SELECT * FROM users WHERE email = $1 AND is_active = true] *)
Definition select_active_user_by_email (e : option string) (d : Db) : list UserRow :=
  filter (fun u => eq_text (user_email u) e && is_true (is_active u)) (users d).

(** [SELECT id, full_name, email, phone, class_level, registration_date
     FROM users WHERE id = $1 AND is_active = true] *)
Definition select_profile_by_id (i : option Z) (d : Db) : list UserRow :=
  filter (fun u => eq_id (user_id u) i && is_true (is_active u)) (users d).

(** The sequence behind [users.id] hands out the next identifier and the
    row is added to the table. *)
Definition append_user (r : UserRow) (d : Db) : Db :=
  {| users := users d ++ [r];
     courses := courses d;
     users_id_seq := users_id_seq d + 1;
     public_tables := public_tables d |}.

(** [SELECT table_name FROM information_schema.tables
     WHERE table_schema = 'public' AND table_name = 'users'] *)
Definition select_users_table (d : Db) : list string :=
  filter (fun t => t =? "users") (public_tables d).

(** The row of
    [INSERT INTO users (full_name, email, phone, class_level, password_hash)
     VALUES ($1, $2, $3, $4, $5)]: the three columns the statement does
    not name take the table's defaults. *)
Definition inserted_row (name mail tel level : option string) (hash : string)
    (w : World) : UserRow :=
  {| user_id := users_id_seq (db w);
     full_name := name;
     user_email := mail;
     user_phone := tel;
     class_level := level;
     password_hash := Some hash;
     registration_date := default_registration_date (defaults w) (now w);
     is_active := default_is_active (defaults w);
     trial_used := default_trial_used (defaults w) |}.

(** The row of
    [INSERT INTO users (full_name, email, phone, class_level, password_hash,
     registration_date, is_active, trial_used)
     VALUES ($1, $2, $3, $4, $5, NOW(), true, false)]. *)
Definition inserted_row_full (name mail tel level : option string) (hash : string)
    (w : World) : UserRow :=
  {| user_id := users_id_seq (db w);
     full_name := name;
     user_email := mail;
     user_phone := tel;
     class_level := level;
     password_hash := Some hash;
     registration_date := Some (now w);
     is_active := Some true;
     trial_used := Some false |}.

(** [INSERT ... RETURNING ...]: the result holds the one new row. *)
Definition insert_user (name mail tel level : option string) (hash : string)
  : World -> list UserRow * Db :=
  fun w =>
    let r := inserted_row name mail tel level hash w in
    ([r], append_user r (db w)).

Definition insert_user_full (name mail tel level : option string) (hash : string)
  : World -> list UserRow * Db :=
  fun w =>
    let r := inserted_row_full name mail tel level hash w in
    ([r], append_user r (db w)).

(** [ORDER BY]: insertion into an ordered list, oldest row first among
    rows that compare equal. *)
Fixpoint insert_sorted {A : Type} (le : A -> A -> bool) (x : A) (l : list A) : list A :=
  match l with
  | [] => [x]
  | y :: rest => if le x y then x :: l else y :: insert_sorted le x rest
  end.

Definition sort_by {A : Type} (le : A -> A -> bool) (l : list A) : list A :=
  fold_right (insert_sorted le) [] l.

Definition by_id (a b : CourseRow) : bool := (course_id a <=? course_id b)%Z.

(** [SELECT * FROM courses WHERE is_active = true ORDER BY id] *)
Definition select_active_courses (d : Db) : list CourseRow :=
  sort_by by_id (filter (fun c => is_true (course_is_active c)) (courses d)).

(** [ORDER BY registration_date DESC]: PostgreSQL puts NULL first. *)
Definition by_registration_date_desc (a b : UserRow) : bool :=
  match registration_date a, registration_date b with
  | None, _ => true
  | Some _, None => false
  | Some x, Some y => (y <=? x)%Z
  end.

(** [SELECT id, full_name, email, phone, class_level, registration_date,
     is_active FROM users ORDER BY registration_date DESC] *)
Definition select_all_users (d : Db) : list UserRow :=
  sort_by by_registration_date_desc (users d).

(** ** Row objects, as node-postgres hands them to the handler *)

Definition text (c : option string) : Value :=
  match c with
  | Some s => VStr s
  | None => VNull
  end.

Definition timestamp (c : option Z) : Value :=
  match c with
  | Some t => VDate t
  | None => VNull
  end.

Definition boolean (c : option bool) : Value :=
  match c with
  | Some b => VBool b
  | None => VNull
  end.

(** [RETURNING id, full_name, email] *)
Definition returning_basic (r : UserRow) : Value :=
  VObj [("id", VNum (user_id r));
        ("full_name", text (full_name r));
        ("email", text (user_email r))].

(** The columns of the profile query. *)
Definition profile_row (r : UserRow) : Value :=
  VObj [("id", VNum (user_id r));
        ("full_name", text (full_name r));
        ("email", text (user_email r));
        ("phone", text (user_phone r));
        ("class_level", text (class_level r));
        ("registration_date", timestamp (registration_date r))].

(** The columns of the admin query. *)
Definition admin_row (r : UserRow) : Value :=
  VObj [("id", VNum (user_id r));
        ("full_name", text (full_name r));
        ("email", text (user_email r));
        ("phone", text (user_phone r));
        ("class_level", text (class_level r));
        ("registration_date", timestamp (registration_date r));
        ("is_active", boolean (is_active r))].

(** [SELECT *] on [courses]. *)
Definition course_row (c : CourseRow) : Value :=
  VObj (("id", VNum (course_id c))
        :: ("is_active", boolean (course_is_active c))
        :: course_columns c).

(** ** The libraries behind [bcrypt] and [jwt] *)

(** The payload of a token: [userId] and, in [Full], [email]. *)
Record Payload : Type := mkPayload {
  userId : option Z;
  email_claim : option string
}.

(** The library functions the handlers rely on.
    [bcrypt_hash s rounds] and [bcrypt_compare s hash] are bcryptjs on
    strings (the salt [hash] draws is part of the instance).
    [jwt_sign payload secret expiresIn clock] is [jwt.sign], with
    [expiresIn] in seconds; [jwt_verify token secret clock] is
    [jwt.verify], which throws on a bad signature or an expired token.
    [prepareValue f] is the text node-postgres sends for a query
    parameter that is a number, a boolean, an array or an object. *)
Class Crypto : Type := {
  bcrypt_hash : string -> Z -> string;
  bcrypt_compare : string -> string -> bool;
  jwt_sign : Payload -> string -> option Z -> Z -> string;
  jwt_verify : string -> string -> Z -> JsError + Payload;
  prepareValue : Field -> string
}.

(** How node-postgres passes a field as a query parameter: [undefined]
    and [null] become SQL NULL, a string goes as it is, any other value
    goes as the text [prepareValue] makes of it. *)
Definition sql_param {crypto : Crypto} (f : Field) : option string :=
  match f with
  | FUndefined => None
  | FNull => None
  | FStr s => Some s
  | _ => Some (prepareValue f)
  end.

(** [str.split(' ')] *)
Fixpoint split (sep : ascii) (s : string) : list string :=
  match s with
  | EmptyString => [EmptyString]
  | String c rest =>
      if Ascii.eqb c sep then EmptyString :: split sep rest
      else match split sep rest with
           | piece :: pieces => String c piece :: pieces
           | [] => [String c EmptyString]
           end
  end.

(** [str.startsWith(p)] *)
Definition startsWith (s p : string) : bool := prefix p s.

Section Libraries.

Context {crypto : Crypto}.

(** [await bcrypt.hash(s, 10)]: bcryptjs rejects anything but a string. *)
Definition bcryptHash (s : Field) (rounds : Z) : Exec string :=
  _ <- emit EvBcryptHash ;;
  match s with
  | FStr p => ret (bcrypt_hash p rounds)
  | _ => throw (Error ("Illegal arguments: " ++ typeof s ++ ", number"))
  end.

(** [await bcrypt.compare(s, hash)], [hash] read from a nullable column. *)
Definition bcryptCompare (s : Field) (hash : option string) : Exec bool :=
  _ <- emit EvBcryptCompare ;;
  match s, hash with
  | FStr p, Some h => ret (bcrypt_compare p h)
  | _, Some _ => throw (Error ("Illegal arguments: " ++ typeof s ++ ", string"))
  | _, None => throw (Error ("Illegal arguments: " ++ typeof s ++ ", object"))
  end.

(** [jwt.sign(payload, JWT_SECRET, { expiresIn })] *)
Definition jwtSign (payload : Payload) (expiresIn : option Z) : Exec string :=
  _ <- emit EvJwtSign ;;
  fun w => (inr (jwt_sign payload (JWT_SECRET (config w)) expiresIn (now w)), w).

(** [jwt.verify(token, JWT_SECRET)]; [token] is [undefined] when
    [split] gave fewer than two pieces. *)
Definition jwtVerify (token : option string) : Exec Payload :=
  _ <- emit EvJwtVerify ;;
  match token with
  | None => throw (Error "jwt must be provided")
  | Some t => fun w => (jwt_verify t (JWT_SECRET (config w)) (now w), w)
  end.

End Libraries.

(** ** [src/server.js] *)

Module Minimal.
Section Handlers.

Context {crypto : Crypto}.

(** [app.get('/health', ...)] *)
Definition health (req : Request) : World -> Response * World :=
  fun w =>
    (reply_ok [("status", VStr "OK");
               ("message", VStr "Marine Mentors Backend is running!")], w).

(** [app.post('/api/auth/register', ...)] *)
Definition register (req : Request) : World -> Response * World :=
  try_catch
    (let b := body req in
     existingUser <- pool_query SelectUserIdByEmail
                       (reading (select_id_by_email (sql_param (email b)))) ;;
     if (0 <? List.length existingUser)%nat then
       ret (reply 400 [("error", VStr "User already exists")])
     else
       passwordHash <- bcryptHash (password b) 10 ;;
       newUser <- pool_query InsertUser
                    (insert_user (sql_param (fullName b)) (sql_param (email b))
                       (sql_param (phone b)) (sql_param (classLevel b))
                       passwordHash) ;;
       match newUser with
       | [] => throw (Error "Cannot read properties of undefined (reading 'id')")
       | row :: _ =>
           token <- jwtSign {| userId := Some (user_id row);
                               email_claim := None |} None ;;
           ret (reply_ok [("success", VBool true);
                          ("token", VStr token);
                          ("user", returning_basic row)])
       end)
    (fun _ error => reply 500 [("error", VStr "Registration failed")]).

(** [app.post('/api/auth/login', ...)] *)
Definition login (req : Request) : World -> Response * World :=
  try_catch
    (let b := body req in
     user <- pool_query SelectUserByEmail
               (reading (select_user_by_email (sql_param (email b)))) ;;
     match user with
     | [] => ret (reply 400 [("error", VStr "Invalid credentials")])
     | row :: _ =>
         validPassword <- bcryptCompare (password b) (password_hash row) ;;
         if negb validPassword then
           ret (reply 400 [("error", VStr "Invalid credentials")])
         else
           token <- jwtSign {| userId := Some (user_id row);
                               email_claim := None |} None ;;
           ret (reply_ok [("success", VBool true);
                          ("token", VStr token);
                          ("user", VObj [("id", VNum (user_id row));
                                         ("fullName", text (full_name row));
                                         ("email", text (user_email row))])])
     end)
    (fun _ error => reply 500 [("error", VStr "Login failed")]).

(** [app.get('/api/courses', ...)] *)
Definition courses_handler (req : Request) : World -> Response * World :=
  try_catch
    (courses <- pool_query SelectActiveCourses (reading select_active_courses) ;;
     ret (reply_ok [("success", VBool true);
                    ("courses", VArr (map course_row courses))]))
    (fun _ error => reply 500 [("error", VStr "Failed to fetch courses")]).

End Handlers.
End Minimal.

(** ** [src/unnamed/part_000], first document *)

Module Basic.
Section Handlers.

Context {crypto : Crypto}.

Definition health (req : Request) : World -> Response * World :=
  fun w =>
    (reply_ok [("status", VStr "OK");
               ("message", VStr "Marine Mentors Backend is running!");
               ("timestamp", VDate (now w))], w).

(** [app.get('/api/test-db', ...)] *)
Definition test_db (req : Request) : World -> Response * World :=
  try_catch
    (result <- pool_query SelectNow (fun w => ([now w], db w)) ;;
     match result with
     | [] => throw (Error "Cannot read properties of undefined (reading 'now')")
     | t :: _ =>
         ret (reply_ok [("success", VBool true);
                        ("message", VStr "Database connection successful");
                        ("timestamp", VDate t)])
     end)
    (fun _ error => reply 500 [("success", VBool false);
                               ("message", VStr "Database connection failed");
                               ("error", VStr (message error))]).

Definition register (req : Request) : World -> Response * World :=
  try_catch
    (let b := body req in
     existingUser <- pool_query SelectUserIdByEmail
                       (reading (select_id_by_email (sql_param (email b)))) ;;
     if (0 <? List.length existingUser)%nat then
       ret (reply 400 [("error", VStr "User already exists with this email")])
     else
       passwordHash <- bcryptHash (password b) 10 ;;
       newUser <- pool_query InsertUser
                    (insert_user (sql_param (fullName b)) (sql_param (email b))
                       (sql_param (phone b)) (sql_param (classLevel b))
                       passwordHash) ;;
       match newUser with
       | [] => throw (Error "Cannot read properties of undefined (reading 'id')")
       | row :: _ =>
           token <- jwtSign {| userId := Some (user_id row);
                               email_claim := None |} None ;;
           ret (reply_ok [("success", VBool true);
                          ("token", VStr token);
                          ("user", returning_basic row);
                          ("message", VStr "Registration successful!")])
       end)
    (fun _ error => reply 500 [("error", VStr "Registration failed");
                               ("details", VStr (message error))]).

Definition login (req : Request) : World -> Response * World :=
  try_catch
    (let b := body req in
     user <- pool_query SelectUserByEmail
               (reading (select_user_by_email (sql_param (email b)))) ;;
     match user with
     | [] => ret (reply 400 [("error", VStr "Invalid email or password")])
     | row :: _ =>
         validPassword <- bcryptCompare (password b) (password_hash row) ;;
         if negb validPassword then
           ret (reply 400 [("error", VStr "Invalid email or password")])
         else
           token <- jwtSign {| userId := Some (user_id row);
                               email_claim := None |} None ;;
           ret (reply_ok [("success", VBool true);
                          ("token", VStr token);
                          ("user", VObj [("id", VNum (user_id row));
                                         ("fullName", text (full_name row));
                                         ("email", text (user_email row));
                                         ("classLevel", text (class_level row))]);
                          ("message", VStr "Login successful!")])
     end)
    (fun _ error => reply 500 [("error", VStr "Login failed");
                               ("details", VStr (message error))]).

Definition courses_handler (req : Request) : World -> Response * World :=
  try_catch
    (courses <- pool_query SelectActiveCourses (reading select_active_courses) ;;
     ret (reply_ok [("success", VBool true);
                    ("courses", VArr (map course_row courses))]))
    (fun _ error => reply 500 [("error", VStr "Failed to fetch courses");
                               ("details", VStr (message error))]).

(** [app.get('*', ...)] *)
Definition catch_all (req : Request) : World -> Response * World :=
  fun w =>
    (reply 404 [("error", VStr "Route not found");
                ("availableRoutes",
                 VArr [VStr "GET /health";
                       VStr "GET /api/test-db";
                       VStr "POST /api/auth/register";
                       VStr "POST /api/auth/login";
                       VStr "GET /api/courses"])], w).

End Handlers.
End Basic.

(** ** [src/unnamed/part_000], second document *)

Module Full.
Section Handlers.

Context {crypto : Crypto}.

(** [process.env.NODE_ENV === 'development'] *)
Definition development (c : Config) : bool :=
  match NODE_ENV c with
  | Some e => e =? "development"
  | None => false
  end.

Definition health (req : Request) : World -> Response * World :=
  fun w =>
    (reply_ok [("status", VStr "OK");
               ("message", VStr "Marine Mentors Backend is running!");
               ("timestamp", VDate (now w));
               ("environment",
                VStr (match NODE_ENV (config w) with
                      | Some e => if e =? "" then "development" else e
                      | None => "development"
                      end))], w).

Definition test_db (req : Request) : World -> Response * World :=
  try_catch
    (result <- pool_query SelectNow (fun w => ([now w], db w)) ;;
     tableCheck <- pool_query SelectUsersTable (reading select_users_table) ;;
     match result with
     | [] => throw (Error "Cannot read properties of undefined (reading 'current_time')")
     | t :: _ =>
         ret (reply_ok [("success", VBool true);
                        ("message", VStr "Database connection successful");
                        ("timestamp", VDate t);
                        ("usersTableExists",
                         VBool (0 <? List.length tableCheck)%nat)])
     end)
    (fun _ error => reply 500 [("success", VBool false);
                               ("message", VStr "Database connection failed");
                               ("error", VStr (message error))]).

(** [!fullName || !email || !phone || !classLevel || !password] *)
Definition missing_fields (b : Body) : bool :=
  negb (truthy (fullName b)) || negb (truthy (email b))
  || negb (truthy (phone b)) || negb (truthy (classLevel b))
  || negb (truthy (password b)).

(** [!email || !password] *)
Definition missing_credentials (b : Body) : bool :=
  negb (truthy (email b)) || negb (truthy (password b)).

Definition register (req : Request) : World -> Response * World :=
  try_catch
    (let b := body req in
     if missing_fields b then
       ret (reply 400
              [("success", VBool false);
               ("error", VStr "All fields are required (fullName, email, phone, classLevel, password)")])
     else
       existingUser <- pool_query SelectUserIdByEmail
                         (reading (select_id_by_email (sql_param (email b)))) ;;
       if (0 <? List.length existingUser)%nat then
         ret (reply 400 [("success", VBool false);
                         ("error", VStr "User already exists with this email")])
       else
         passwordHash <- bcryptHash (password b) 10 ;;
         newUser <- pool_query InsertUserFull
                      (insert_user_full (sql_param (fullName b)) (sql_param (email b))
                         (sql_param (phone b)) (sql_param (classLevel b))
                         passwordHash) ;;
         match newUser with
         | [] => throw (Error "Failed to create user - no rows returned")
         | row :: _ =>
             token <- jwtSign {| userId := Some (user_id row);
                                 email_claim := user_email row |}
                        (Some 86400) ;;
             ret (reply 201
                    [("success", VBool true);
                     ("message", VStr "Registration successful!");
                     ("token", VStr token);
                     ("user", VObj [("id", VNum (user_id row));
                                    ("fullName", text (full_name row));
                                    ("email", text (user_email row));
                                    ("classLevel", text (class_level row));
                                    ("registrationDate",
                                     timestamp (registration_date row))])])
         end)
    (fun w error =>
       reply 500 ([("success", VBool false);
                   ("error", VStr ("Registration failed: " ++ message error))]
                  ++ opt_member "details"
                       (if development (config w) then Some (VStr (stack error))
                        else None))).

Definition login (req : Request) : World -> Response * World :=
  try_catch
    (let b := body req in
     if missing_credentials b then
       ret (reply 400 [("success", VBool false);
                       ("error", VStr "Email and password are required")])
     else
       user <- pool_query SelectActiveUserByEmail
                 (reading (select_active_user_by_email (sql_param (email b)))) ;;
       match user with
       | [] => ret (reply 401 [("success", VBool false);
                               ("error", VStr "Invalid email or password")])
       | row :: _ =>
           validPassword <- bcryptCompare (password b) (password_hash row) ;;
           if negb validPassword then
             ret (reply 401 [("success", VBool false);
                             ("error", VStr "Invalid email or password")])
           else
             token <- jwtSign {| userId := Some (user_id row);
                                 email_claim := user_email row |}
                        (Some 86400) ;;
             ret (reply_ok
                    [("success", VBool true);
                     ("message", VStr "Login successful!");
                     ("token", VStr token);
                     ("user", VObj [("id", VNum (user_id row));
                                    ("fullName", text (full_name row));
                                    ("email", text (user_email row));
                                    ("classLevel", text (class_level row))])])
       end)
    (fun _ error => reply 500 [("success", VBool false);
                               ("error", VStr ("Login failed: " ++ message error))]).

Definition courses_handler (req : Request) : World -> Response * World :=
  try_catch
    (courses <- pool_query SelectActiveCourses (reading select_active_courses) ;;
     ret (reply_ok [("success", VBool true);
                    ("courses", VArr (map course_row courses))]))
    (fun _ error =>
       reply 500 [("success", VBool false);
                  ("error", VStr ("Failed to fetch courses: " ++ message error))]).

(** [!authHeader || !authHeader.startsWith('Bearer ')] *)
Definition no_bearer (authHeader : option string) : bool :=
  match authHeader with
  | None => true
  | Some h => (h =? "") || negb (startsWith h "Bearer ")
  end.

(** [app.get('/api/user/profile', ...)] *)
Definition profile (req : Request) : World -> Response * World :=
  try_catch
    (let authHeader := authorization req in
     if no_bearer authHeader then
       ret (reply 401 [("success", VBool false);
                       ("error", VStr "No valid token provided")])
     else
       let token := match authHeader with
                    | Some h => nth_error (split " " h) 1
                    | None => None
                    end in
       decoded <- jwtVerify token ;;
       user <- pool_query SelectProfileById
                 (reading (select_profile_by_id (userId decoded))) ;;
       match user with
       | [] => ret (reply 404 [("success", VBool false);
                               ("error", VStr "User not found")])
       | row :: _ => ret (reply_ok [("success", VBool true);
                                    ("user", profile_row row)])
       end)
    (fun _ error => reply 401 [("success", VBool false);
                               ("error", VStr "Invalid or expired token")]).

(** [app.get('/api/admin/users', ...)] *)
Definition admin_users (req : Request) : World -> Response * World :=
  try_catch
    (users <- pool_query SelectAllUsers (reading select_all_users) ;;
     ret (reply_ok [("success", VBool true);
                    ("users", VArr (map admin_row users));
                    ("total", VNum (Z.of_nat (List.length users)))]))
    (fun _ error =>
       reply 500 [("success", VBool false);
                  ("error", VStr ("Failed to fetch users: " ++ message error))]).

Definition catch_all (req : Request) : World -> Response * World :=
  fun w =>
    (reply 404 [("error", VStr "Route not found");
                ("requestedPath", VStr (originalUrl req));
                ("availableRoutes",
                 VArr [VStr "GET /health";
                       VStr "GET /api/test-db";
                       VStr "POST /api/auth/register";
                       VStr "POST /api/auth/login";
                       VStr "GET /api/courses";
                       VStr "GET /api/user/profile";
                       VStr "GET /api/admin/users"])], w).

End Handlers.
End Full.

(** ** Routing *)

(** Express's path matcher: [route_match pattern path]. *)
Class Framework : Type := {
  route_match : string -> string -> bool
}.

Definition Handler : Type := Request -> World -> Response * World.

(** One [app.METHOD(path, handler)] registration. *)
Record Route : Type := mkRoute {
  route_method : Method;
  route_path : string;
  route_handler : Handler
}.

(** What a request meets: a handler of the application, whose response
    is sent whole or, to a HEAD request, as status and headers without
    the body; the [cors()] middleware answering a preflight with 204; or
    the end of the stack, where Express's own final handler takes over.
    The error-handling middleware that [Full] registers last only runs
    when an error is passed on with [next(error)], which no handler of
    the sources does; the body is taken as [express.json()] parsed it. *)
Inductive Outcome : Type :=
| Replied (r : Response)
| RepliedNoBody (code : Z)
| Preflight
| Unhandled.

(** [res.json] on a request of method [m]: Express ends the response to
    a HEAD request without writing the body. *)
Definition respond (m : Method) (res : Response) : Outcome :=
  match m with
  | HEAD => RepliedNoBody (status res)
  | _ => Replied res
  end.

(** A route registered with [app.get] also serves HEAD. *)
Definition handles (registered requested : Method) : bool :=
  match registered, requested with
  | GET, GET | GET, HEAD | HEAD, HEAD | POST, POST | PUT, PUT
  | PATCH, PATCH | DELETE, DELETE | OPTIONS, OPTIONS => true
  | _, _ => false
  end.

Definition method_name (m : Method) : string :=
  match m with
  | GET => "GET"
  | HEAD => "HEAD"
  | POST => "POST"
  | PUT => "PUT"
  | PATCH => "PATCH"
  | DELETE => "DELETE"
  | OPTIONS => "OPTIONS"
  end.

Inductive Variant : Type := minimal | basic | full.

Section Application.

Context {crypto : Crypto} {framework : Framework}.

(** The routes in the order the source registers them. *)
Definition routes (v : Variant) : list Route :=
  match v with
  | minimal =>
      [ mkRoute GET "/health" Minimal.health;
        mkRoute POST "/api/auth/register" Minimal.register;
        mkRoute POST "/api/auth/login" Minimal.login;
        mkRoute GET "/api/courses" Minimal.courses_handler ]
  | basic =>
      [ mkRoute GET "/health" Basic.health;
        mkRoute GET "/api/test-db" Basic.test_db;
        mkRoute POST "/api/auth/register" Basic.register;
        mkRoute POST "/api/auth/login" Basic.login;
        mkRoute GET "/api/courses" Basic.courses_handler;
        mkRoute GET "*" Basic.catch_all ]
  | full =>
      [ mkRoute GET "/health" Full.health;
        mkRoute GET "/api/test-db" Full.test_db;
        mkRoute POST "/api/auth/register" Full.register;
        mkRoute POST "/api/auth/login" Full.login;
        mkRoute GET "/api/courses" Full.courses_handler;
        mkRoute GET "/api/user/profile" Full.profile;
        mkRoute GET "/api/admin/users" Full.admin_users;
        mkRoute GET "*" Full.catch_all ]
  end.

(** The first registration that matches the request, if any. *)
Fixpoint find_route (table : list Route) (req : Request) : option Route :=
  match table with
  | [] => None
  | r :: rest =>
      if handles (route_method r) (method req)
         && route_match (route_path r) (path req)
      then Some r
      else find_route rest req
  end.

(** [app]: [cors()] ends a preflight, then the router runs the first
    matching registration. *)
Definition app (v : Variant) (req : Request) : World -> Outcome * World :=
  fun w =>
    match method req with
    | OPTIONS => (Preflight, w)
    | _ =>
        match find_route (routes v) req with
        | Some r =>
            let '(res, w') := route_handler r req w in
            (respond (method req) res, w')
        | None => (Unhandled, w)
        end
    end.

(** The routes registered before the catch-all, written as the
    catch-all lists them. *)
Definition listed_routes (v : Variant) : list Value :=
  map (fun r => VStr (method_name (route_method r) ++ " " ++ route_path r))
    (filter (fun r => negb (route_path r =? "*")) (routes v)).

Definition register (v : Variant) : Handler :=
  match v with
  | minimal => Minimal.register
  | basic => Basic.register
  | full => Full.register
  end.

Definition login (v : Variant) : Handler :=
  match v with
  | minimal => Minimal.login
  | basic => Basic.login
  | full => Full.login
  end.

Definition courses_handler (v : Variant) : Handler :=
  match v with
  | minimal => Minimal.courses_handler
  | basic => Basic.courses_handler
  | full => Full.courses_handler
  end.

End Application.

(** ** Sample instances of the library interfaces

    They are used to run the handlers on concrete requests. *)

Module Sample.

Fixpoint repeat_char (c : ascii) (n : nat) : string :=
  match n with
  | O => EmptyString
  | S k => String c (repeat_char c k)
  end.

(** A token is a sign character followed by [|userId|] digits ["1"]. *)
Definition sign (p : Payload) : string :=
  match userId p with
  | None => "u"
  | Some z =>
      if (0 <=? z)%Z then String "p" (repeat_char "1" (Z.to_nat z))
      else String "n" (repeat_char "1" (Z.to_nat (- z)))
  end.

Definition verify (token : string) : JsError + Payload :=
  match token with
  | String "u" EmptyString => inr {| userId := None; email_claim := None |}
  | String "p" rest =>
      inr {| userId := Some (Z.of_nat (String.length rest)); email_claim := None |}
  | String "n" rest =>
      inr {| userId := Some (- Z.of_nat (String.length rest)); email_claim := None |}
  | _ => inl (Error "jwt malformed")
  end.

#[export] Instance crypto : Crypto := {
  bcrypt_hash := fun s rounds => "$2a$" ++ s;
  bcrypt_compare := fun s hash => hash =? "$2a$" ++ s;
  jwt_sign := fun payload secret expiresIn clock => sign payload;
  jwt_verify := fun token secret clock => verify token;
  prepareValue := fun f =>
    match f with
    | FNum n => NilZero.string_of_int (Z.to_int n)
    | FBool true => "true"
    | FBool false => "false"
    | FArr _ => "{}"
    | _ => "[object Object]"
    end
}.

(** Literal paths match themselves; ["*"] matches every path. *)
#[export] Instance framework : Framework := {
  route_match := fun pattern p => (pattern =? "*") || (pattern =? p)
}.

Definition no_body : Body :=
  {| fullName := FUndefined; email := FUndefined; phone := FUndefined;
     classLevel := FUndefined; password := FUndefined |}.

Definition alice : Body :=
  {| fullName := FStr "A"; email := FStr "a@x.com"; phone := FStr "1";
     classLevel := FStr "1"; password := FStr "pw" |}.

(** [alice] with the phone left out. *)
Definition alice_no_phone : Body :=
  {| fullName := FStr "A"; email := FStr "a@x.com"; phone := FUndefined;
     classLevel := FStr "1"; password := FStr "pw" |}.

Definition credentials (mail pw : string) : Body :=
  {| fullName := FUndefined; email := FStr mail; phone := FUndefined;
     classLevel := FUndefined; password := FStr pw |}.

(** A body with an email and nothing else. *)
Definition only_email : Body :=
  {| fullName := FUndefined; email := FStr "a@x.com"; phone := FUndefined;
     classLevel := FUndefined; password := FUndefined |}.

(** The body [{"email": mail, "password": 1}]. *)
Definition numeric_password (mail : string) : Body :=
  {| fullName := FUndefined; email := FStr mail; phone := FUndefined;
     classLevel := FUndefined; password := FNum 1 |}.


Definition post (p : string) (b : Body) : Request :=
  {| method := POST; path := p; originalUrl := p;
     authorization := None; body := b |}.

Definition get_with (p : string) (header : option string) : Request :=
  {| method := GET; path := p; originalUrl := p;
     authorization := header; body := no_body |}.



Definition no_defaults : Defaults :=
  {| default_registration_date := fun _ => None;
     default_is_active := None;
     default_trial_used := None |}.

Definition empty_db : Db :=
  {| users := []; courses := []; users_id_seq := 1;
     public_tables := ["users"; "courses"] |}.

Definition world (d : Db) (fs : list (option JsError)) : World :=
  {| config := {| env_JWT_SECRET := None; NODE_ENV := None |};
     defaults := no_defaults;
     db := d;
     now := 1000;
     faults := fs;
     trace := [] |}.

(** The row the registration of [alice] leaves in [Full]. *)
Definition alice_row : UserRow :=
  {| user_id := 1; full_name := Some "A"; user_email := Some "a@x.com";
     user_phone := Some "1"; class_level := Some "1";
     password_hash := Some "$2a$pw"; registration_date := Some 1000;
     is_active := Some true; trial_used := Some false |}.

Definition alice_db : Db :=
  {| users := [alice_row]; courses := []; users_id_seq := 2;
     public_tables := ["users"; "courses"] |}.


Definition course (i : Z) (active : option bool) (title : string) : CourseRow :=
  {| course_id := i; course_is_active := active;
     course_columns := [("title", VStr title)] |}.

Definition course_db : Db :=
  {| users := [];
     courses := [course 3 (Some true) "Seamanship";
                 course 2 (Some false) "Radar";
                 course 1 (Some true) "Navigation";
                 course 4 None "Meteorology"];
     users_id_seq := 1;
     public_tables := ["users"; "courses"] |}.

End Sample.

(** ** Vocabulary of the properties *)

(** Some row of [users] carries the email [e]. *)
Definition email_taken (e : string) (d : Db) : Prop :=
  exists u, In u (users d) /\ user_email u = Some e.

(** The user lookup of the login handler: [Full] adds [is_active = true]. *)
Definition find_user (v : Variant) (e : option string) (d : Db) : list UserRow :=
  match v with
  | full => select_active_user_by_email e d
  | _ => select_user_by_email e d
  end.

(** A registration succeeded when its body says [success: true]. *)
Definition succeeded (r : Response) : Prop :=
  member "success" (json r) = Some (VBool true).

(** The row the INSERT statement of each variant builds from a body
    whose password is the string [pw]. *)
Definition new_row {crypto : Crypto} (v : Variant) (b : Body) (pw : string) (w : World)
  : UserRow :=
  match v with
  | full =>
      inserted_row_full (sql_param (fullName b)) (sql_param (email b))
        (sql_param (phone b)) (sql_param (classLevel b)) (bcrypt_hash pw 10) w
  | _ =>
      inserted_row (sql_param (fullName b)) (sql_param (email b))
        (sql_param (phone b)) (sql_param (classLevel b)) (bcrypt_hash pw 10) w
  end.

(** The [user] member of the success response. *)
Definition user_view (v : Variant) (row : UserRow) : Value :=
  match v with
  | full =>
      VObj [("id", VNum (user_id row));
            ("fullName", text (full_name row));
            ("email", text (user_email row));
            ("classLevel", text (class_level row));
            ("registrationDate", timestamp (registration_date row))]
  | _ => returning_basic row
  end.

(** The token of the success response. *)
Definition issued_token {crypto : Crypto} (v : Variant) (row : UserRow) (w : World)
  : string :=
  match v with
  | full =>
      jwt_sign {| userId := Some (user_id row); email_claim := user_email row |}
        (JWT_SECRET (config w)) (Some 86400) (now w)
  | _ =>
      jwt_sign {| userId := Some (user_id row); email_claim := None |}
        (JWT_SECRET (config w)) None (now w)
  end.

(** The members of the [user] object in each variant: columns of the
    RETURNING clause in [Minimal] and [Basic], renamed fields in [Full]. *)
Definition public_fields (v : Variant) : list string :=
  match v with
  | full => ["id"; "fullName"; "email"; "classLevel"; "registrationDate"]
  | _ => ["id"; "full_name"; "email"]
  end.

(** Two bodies that differ at most in [password]. *)
Definition same_but_password (b b' : Body) : Prop :=
  fullName b = fullName b' /\ email b = email b'
  /\ phone b = phone b' /\ classLevel b = classLevel b'.

(** A string without the separator of [split]. *)
Fixpoint no_space (s : string) : bool :=
  match s with
  | EmptyString => true
  | String c rest => negb (Ascii.eqb c " ") && no_space rest
  end.

(** What is assumed of [jsonwebtoken]: a token verifies under the secret that signed it while it has not
    expired, and gives back the [userId] it was signed with. *)
Definition jwt_roundtrip (crypto : Crypto) : Prop :=
  forall payload secret ttl issued t,
    issued <= t < issued + ttl ->
    exists decoded,
      jwt_verify (jwt_sign payload secret (Some ttl) issued) secret t = inr decoded
      /\ userId decoded = userId payload.

(** A token is base64url text and dots: it holds no space. *)
Definition jwt_compact (crypto : Crypto) : Prop :=
  forall payload secret expiresIn issued,
    no_space (jwt_sign payload secret expiresIn issued) = true.

(** The identifier in the [user] object of a response. *)
Definition user_id_of (r : Response) : option Value :=
  match member "user" (json r) with
  | Some u => member "id" u
  | None => None
  end.

(** The order of [ORDER BY id]. *)
Definition ascending (a b : CourseRow) : Prop := course_id a <= course_id b.

(** [le] read as a relation. *)
Definition ordered {A : Type} (le : A -> A -> bool) (a b : A) : Prop :=
  le a b = true.

(** The emails held by the table, NULL left out. *)
Definition emails (d : Db) : list string :=
  flat_map (fun u => match user_email u with
                     | Some e => [e]
                     | None => []
                     end) (users d).

(** No two rows share an email. *)
Definition unique_emails (d : Db) : Prop := NoDup (emails d).

(** The external calls of a registration that runs to its end. *)
Definition register_calls (v : Variant) : list Event :=
  [EvQuery SelectUserIdByEmail;
   EvBcryptHash;
   EvQuery match v with full => InsertUserFull | _ => InsertUser end;
   EvJwtSign].

(** What is assumed of [bcryptjs] where a login follows a registration:
    a password compares equal to its own hash. *)
Definition bcrypt_accepts_own_hash (crypto : Crypto) : Prop :=
  forall s rounds, bcrypt_compare s (bcrypt_hash s rounds) = true.

(** The order of [ORDER BY registration_date DESC]: NULL first, then the
    latest date. *)
Definition newest_first (a b : UserRow) : Prop :=
  match registration_date a, registration_date b with
  | None, _ => True
  | Some _, None => False
  | Some x, Some y => y <= x
  end.

(** The [user] member of a successful login. *)
Definition login_view (v : Variant) (row : UserRow) : Value :=
  match v with
  | minimal =>
      VObj [("id", VNum (user_id row));
            ("fullName", text (full_name row));
            ("email", text (user_email row))]
  | _ =>
      VObj [("id", VNum (user_id row));
            ("fullName", text (full_name row));
            ("email", text (user_email row));
            ("classLevel", text (class_level row))]
  end.

(** The identifier the sequence will hand out next is not in the table. *)
Definition next_id_unused (d : Db) : Prop :=
  Forall (fun u => user_id u <> users_id_seq d) (users d).

(** The external calls of a login that runs to its end. *)
Definition login_calls (v : Variant) : list Event :=
  [EvQuery match v with full => SelectActiveUserByEmail | _ => SelectUserByEmail end;
   EvBcryptCompare;
   EvJwtSign].

(** The external calls of a profile request that runs to its end. *)
Definition profile_calls : list Event :=
  [EvJwtVerify; EvQuery SelectProfileById].

(** * Properties *)

(** ** The execution monad *)

Lemma pool_query_runs {A : Type} (q : Sql) (run : World -> A * Db) (w : World) :
  next_fault w = None ->
  pool_query q run w =
    (inr (fst (run (record_event (EvQuery q) w))),
     set_db (snd (run (record_event (EvQuery q) w)))
       (set_faults (tl (faults w)) (record_event (EvQuery q) w))).
Proof.
  destruct w as [c dflt d t fs tr]; unfold next_fault, pool_query; simpl.
  destruct fs as [| [e|] fs]; simpl; intros H; try discriminate;
    destruct (run _); reflexivity.
Qed.

Lemma pool_query_fails {A : Type} (q : Sql) (run : World -> A * Db) (w : World) (e : JsError) :
  next_fault w = Some e ->
  pool_query q run w =
    (inl e, set_faults (tl (faults w)) (record_event (EvQuery q) w)).
Proof.
  destruct w as [c dflt d t fs tr]; unfold next_fault, pool_query; simpl.
  destruct fs as [| [e'|] fs]; simpl; intros H; try discriminate.
  injection H as ->; reflexivity.
Qed.

Lemma reading_result {A : Type} (f : Db -> A) (w : World) :
  reading f w = (f (db w), db w).
Proof. reflexivity. Qed.

(** C10: in [Full], a login whose email or password is missing (or empty)
    is answered 400 "Email and password are required", and the world is
    left as it was: no query, no hash comparison, no token. *)
Theorem login_requires_email_and_password
    {crypto : Crypto} (req : Request) (w : World) :
  truthy (email (body req)) = false \/ truthy (password (body req)) = false ->
  Full.login req w =
    (reply 400 [("success", VBool false);
                ("error", VStr "Email and password are required")], w).
Proof.
  intros H. unfold Full.login, try_catch.
  assert (E : Full.missing_credentials (body req) = true).
  { unfold Full.missing_credentials.
    destruct H as [-> | ->]; simpl; auto using orb_true_r. }
  rewrite E. reflexivity.
Qed.

Lemma login_requires_email_and_password_witness :
  Full.login (crypto := Sample.crypto)
    (Sample.post "/api/auth/login" Sample.no_body)
    (Sample.world Sample.alice_db []) =
    (reply 400 [("success", VBool false);
                ("error", VStr "Email and password are required")],
     Sample.world Sample.alice_db []).
Proof.
  apply (login_requires_email_and_password
           (Sample.post "/api/auth/login" Sample.no_body)).
  left; reflexivity.
Defined.

(** ** Registration with an email that is already there *)

Lemma email_taken_found (e : string) (d : Db) :
  email_taken e d ->
  (0 <? List.length (select_id_by_email (Some e) d))%nat = true.
Proof.
  intros [u [Hin He]]. unfold select_id_by_email.
  rewrite length_map. apply Nat.ltb_lt.
  assert (Hf : In u (filter (fun u0 => eq_text (user_email u0) (Some e)) (users d))).
  { apply filter_In. split; [exact Hin|].
    rewrite He. simpl. apply String.eqb_refl. }
  destruct (filter _ (users d)); [contradiction | simpl; lia].
Qed.




(** ** Login failures *)

(** With a string password the two failures of a login are answered
    alike: a login whose email finds no user, and a login whose email
    finds a user but whose password, a string, [bcrypt.compare] does not
    accept against the stored hash, get the same response (400 in
    [Minimal] and [Basic], 401 in [Full], one generic message), provided
    the lookup meets no store fault and, in [Full], neither request is
    stopped by the check for a missing email or password. *)
Theorem login_failures_indistinguishable
    {crypto : Crypto} (v : Variant) (req1 req2 : Request) (w1 w2 : World)
    (row : UserRow) (rest : list UserRow) (p h : string) :
  (v = full -> Full.missing_credentials (body req1) = false
               /\ Full.missing_credentials (body req2) = false) ->
  next_fault w1 = None ->
  next_fault w2 = None ->
  find_user v (sql_param (email (body req1))) (db w1) = [] ->
  find_user v (sql_param (email (body req2))) (db w2) = row :: rest ->
  password (body req2) = FStr p ->
  password_hash row = Some h ->
  bcrypt_compare p h = false ->
  fst (login v req1 w1) = fst (login v req2 w2)
  /\ status (fst (login v req1 w1)) = match v with full => 401 | _ => 400 end
  /\ exists msg,
       error_of (fst (login v req1 w1)) = Some (VStr msg)
       /\ startsWith msg "Invalid" = true.
Proof.
  intros Hvalid F1 F2 Hnone Hsome Hpw Hhash Hcmp.
  destruct v; simpl in Hnone, Hsome;
    unfold login, Minimal.login, Basic.login, Full.login, try_catch, bind;
    cbv zeta;
    try (destruct (Hvalid eq_refl) as [-> ->]);
    rewrite !pool_query_runs by assumption; rewrite !reading_result;
    simpl fst; simpl snd; simpl db at 1; simpl db at 2;
    rewrite Hnone, Hsome;
    unfold bcryptCompare, bind, emit; rewrite Hpw, Hhash; unfold ret;
    rewrite Hcmp; simpl;
    (split; [reflexivity | split; [reflexivity | eexists; split; reflexivity]]).
Qed.

Lemma login_failures_indistinguishable_witness :
  fst (login (crypto := Sample.crypto) full
         (Sample.post "/api/auth/login" (Sample.credentials "nobody@x.com" "pw"))
         (Sample.world Sample.alice_db []))
  = fst (login (crypto := Sample.crypto) full
           (Sample.post "/api/auth/login" (Sample.credentials "a@x.com" "wrong"))
           (Sample.world Sample.alice_db []))
  /\ status (fst (login (crypto := Sample.crypto) full
                    (Sample.post "/api/auth/login"
                       (Sample.credentials "nobody@x.com" "pw"))
                    (Sample.world Sample.alice_db []))) = 401
  /\ exists msg,
       error_of (fst (login (crypto := Sample.crypto) full
                        (Sample.post "/api/auth/login"
                           (Sample.credentials "nobody@x.com" "pw"))
                        (Sample.world Sample.alice_db []))) = Some (VStr msg)
       /\ startsWith msg "Invalid" = true.
Proof.
  apply (login_failures_indistinguishable (crypto := Sample.crypto) full
           (Sample.post "/api/auth/login" (Sample.credentials "nobody@x.com" "pw"))
           (Sample.post "/api/auth/login" (Sample.credentials "a@x.com" "wrong"))
           (Sample.world Sample.alice_db []) (Sample.world Sample.alice_db [])
           Sample.alice_row [] "wrong" "$2a$pw").
  - intros _. split; reflexivity.
  - reflexivity.
  - reflexivity.
  - reflexivity.
  - reflexivity.
  - reflexivity.
  - reflexivity.
  - reflexivity.
Defined.

(** ** What a successful registration does *)

Lemma register_succeeded
    {crypto : Crypto} (v : Variant) (req : Request) (w : World) :
  succeeded (fst (register v req w)) ->
  exists pw,
    password (body req) = FStr pw
    /\ status (fst (register v req w)) = match v with full => 201 | _ => 200 end
    /\ member "user" (json (fst (register v req w)))
       = Some (user_view v (new_row v (body req) pw w))
    /\ member "token" (json (fst (register v req w)))
       = Some (VStr (issued_token v (new_row v (body req) pw w) w))
    /\ db (snd (register v req w)) = append_user (new_row v (body req) pw w) (db w)
    /\ config (snd (register v req w)) = config w
    /\ now (snd (register v req w)) = now w
    /\ defaults (snd (register v req w)) = defaults w.
Proof.
  unfold succeeded.
  destruct w as [c dflt d t fs tr].
  destruct v; unfold register, Minimal.register, Basic.register, Full.register,
    try_catch, bind, pool_query, reading, bcryptHash, jwtSign, emit, ret, throw;
    cbv zeta; simpl faults; simpl db;
    try destruct (Full.missing_fields (body req));
    destruct fs as [| [e1|] [| [e2|] fs]]; simpl;
    try discriminate;
    destruct (0 <? List.length _)%nat; simpl; try discriminate;
    destruct (password (body req)) as [| | pw | num | flag | items | members]; simpl; try discriminate;
    intros _; exists pw; repeat split.
Qed.

(** ** The user object of a successful registration *)

Lemma user_view_ignores_password
    {crypto : Crypto} (v : Variant) (b b' : Body) (pw pw' : string) (w : World) :
  same_but_password b b' ->
  user_view v (new_row v b pw w) = user_view v (new_row v b' pw' w).
Proof.
  intros (Hn & He & Hp & Hc).
  destruct v; unfold user_view, new_row, returning_basic; simpl;
    rewrite Hn, He, ?Hc; reflexivity.
Qed.

(** C4: the [user] object of a successful registration has exactly the
    public members of its variant, has no [password_hash] and no
    [password] member, and is the same whatever password the request
    carried. *)
Theorem registered_user_is_public
    {crypto : Crypto} (v : Variant) (req : Request) (w : World) :
  succeeded (fst (register v req w)) ->
  exists members,
    member "user" (json (fst (register v req w))) = Some (VObj members)
    /\ keys members = public_fields v
    /\ ~ In "password_hash" (keys members)
    /\ ~ In "password" (keys members)
    /\ forall req',
         same_but_password (body req) (body req') ->
         succeeded (fst (register v req' w)) ->
         member "user" (json (fst (register v req' w))) = Some (VObj members).
Proof.
  intros Hok.
  destruct (register_succeeded v req w Hok) as (pw & _ & _ & Huser & _).
  assert (Hshape : exists members,
             user_view v (new_row v (body req) pw w) = VObj members
             /\ keys members = public_fields v).
  { destruct v; eexists; split; reflexivity. }
  destruct Hshape as (members & Hview & Hkeys).
  exists members. rewrite Huser, Hview, Hkeys.
  split; [reflexivity | split; [reflexivity |]].
  split; [| split].
  - destruct v; simpl; intros H; repeat (destruct H as [H | H]; [discriminate |]);
      exact H.
  - destruct v; simpl; intros H; repeat (destruct H as [H | H]; [discriminate |]);
      exact H.
  - intros req' Hsame Hok'.
    destruct (register_succeeded v req' w Hok') as (pw' & _ & _ & Huser' & _).
    rewrite Huser', <- Hview.
    f_equal. symmetry. apply user_view_ignores_password. exact Hsame.
Qed.

Lemma registered_user_is_public_witness :
  exists members,
    member "user"
      (json (fst (register (crypto := Sample.crypto) full
                    (Sample.post "/api/auth/register" Sample.alice)
                    (Sample.world Sample.empty_db []))))
    = Some (VObj members)
    /\ keys members = ["id"; "fullName"; "email"; "classLevel"; "registrationDate"]
    /\ ~ In "password_hash" (keys members)
    /\ ~ In "password" (keys members)
    /\ forall req',
         same_but_password Sample.alice (body req') ->
         succeeded (fst (register (crypto := Sample.crypto) full req'
                           (Sample.world Sample.empty_db []))) ->
         member "user"
           (json (fst (register (crypto := Sample.crypto) full req'
                         (Sample.world Sample.empty_db []))))
         = Some (VObj members).
Proof.
  apply (registered_user_is_public (crypto := Sample.crypto) full
           (Sample.post "/api/auth/register" Sample.alice)
           (Sample.world Sample.empty_db [])).
  reflexivity.
Defined.

(** ** The row a successful registration inserts *)

(** C8, as the code has it: a successful registration appends one row
    whose [password_hash] is [bcrypt.hash(password, 10)], hence not the
    plaintext as long as bcrypt never returns its input.  [Full] sets
    [is_active = true], [trial_used = false] and
    [registration_date = NOW()] itself; [Minimal] and [Basic] leave these
    three columns to the defaults of the table. *)
Theorem registration_inserts_row
    {crypto : Crypto} (v : Variant) (req : Request) (w : World) :
  succeeded (fst (register v req w)) ->
  exists pw row,
    password (body req) = FStr pw
    /\ users (db (snd (register v req w))) = (users (db w) ++ [row])%list
    /\ password_hash row = Some (bcrypt_hash pw 10)
    /\ ((forall s, bcrypt_hash s 10 <> s) -> password_hash row <> Some pw)
    /\ match v with
       | full =>
           is_active row = Some true
           /\ trial_used row = Some false
           /\ registration_date row = Some (now w)
       | _ =>
           is_active row = default_is_active (defaults w)
           /\ trial_used row = default_trial_used (defaults w)
           /\ registration_date row
              = default_registration_date (defaults w) (now w)
       end.
Proof.
  intros Hok.
  destruct (register_succeeded v req w Hok) as (pw & Hpw & _ & _ & _ & Hdb & _).
  exists pw, (new_row v (body req) pw w).
  rewrite Hdb.
  split; [exact Hpw | split; [reflexivity |]].
  assert (Hhash : password_hash (new_row v (body req) pw w)
                  = Some (bcrypt_hash pw 10)) by (destruct v; reflexivity).
  rewrite Hhash.
  split; [reflexivity | split].
  - intros Hneq Heq. injection Heq as Heq. exact (Hneq pw Heq).
  - destruct v; repeat split.
Qed.

Lemma sample_hash_differs (s : string) :
  bcrypt_hash (Crypto := Sample.crypto) s 10 <> s.
Proof.
  intros H. apply (f_equal String.length) in H. simpl in H. lia.
Qed.

Lemma registration_inserts_row_witness :
  exists pw row,
    password Sample.alice = FStr pw
    /\ users (db (snd (register (crypto := Sample.crypto) full
                         (Sample.post "/api/auth/register" Sample.alice)
                         (Sample.world Sample.empty_db []))))
       = [row]
    /\ password_hash row = Some (bcrypt_hash (Crypto := Sample.crypto) pw 10)
    /\ password_hash row <> Some pw
    /\ is_active row = Some true
    /\ trial_used row = Some false
    /\ registration_date row = Some 1000.
Proof.
  destruct (registration_inserts_row (crypto := Sample.crypto) full
              (Sample.post "/api/auth/register" Sample.alice)
              (Sample.world Sample.empty_db []) eq_refl)
    as (pw & row & Hpw & Hdb & Hhash & Hplain & Hflags).
  exists pw, row.
  split; [exact Hpw | split; [exact Hdb | split; [exact Hhash | split]]].
  - exact (Hplain sample_hash_differs).
  - exact Hflags.
Defined.

(** C8 as stated fails in [Minimal]: on a table that declares no
    defaults the registration succeeds and the new row has neither an
    active flag, nor a trial flag, nor a registration date. *)
Lemma registration_inserts_row_counterexample :
  succeeded (fst (register (crypto := Sample.crypto) minimal
                    (Sample.post "/api/auth/register" Sample.alice)
                    (Sample.world Sample.empty_db [])))
  /\ users (db (snd (register (crypto := Sample.crypto) minimal
                       (Sample.post "/api/auth/register" Sample.alice)
                       (Sample.world Sample.empty_db []))))
     = [ {| user_id := 1; full_name := Some "A"; user_email := Some "a@x.com";
            user_phone := Some "1"; class_level := Some "1";
            password_hash := Some "$2a$pw"; registration_date := None;
            is_active := None; trial_used := None |} ].
Proof. split; reflexivity. Qed.

(** ** The Authorization header *)

Lemma split_no_space (s : string) :
  no_space s = true -> split " " s = [s].
Proof.
  induction s as [| c rest IH]; simpl; [reflexivity |].
  intros H. apply andb_prop in H. destruct H as [Hc Hrest].
  apply negb_true_iff in Hc. rewrite Hc, (IH Hrest). reflexivity.
Qed.

(** [("Bearer " + token).split(' ')[1]] is [token] when the token holds
    no space. *)
Lemma bearer_token (token : string) :
  no_space token = true ->
  nth_error (split " " ("Bearer " ++ token)) 1 = Some token.
Proof.
  intros H. simpl. rewrite (split_no_space token H). reflexivity.
Qed.

Lemma bearer_accepted (token : string) :
  Full.no_bearer (Some ("Bearer " ++ token)) = false.
Proof.
  unfold Full.no_bearer, startsWith. simpl.
  destruct token; reflexivity.
Qed.

(** ** The sample instance meets what is assumed of [jsonwebtoken] *)

Lemma repeat_char_length (c : ascii) (n : nat) :
  String.length (Sample.repeat_char c n) = n.
Proof. induction n; simpl; congruence. Qed.

Lemma repeat_char_no_space (n : nat) :
  no_space (Sample.repeat_char "1" n) = true.
Proof. induction n; simpl; auto. Qed.

Lemma sample_roundtrip : jwt_roundtrip Sample.crypto.
Proof.
  intros payload secret ttl issued t _. simpl. unfold Sample.sign.
  destruct (userId payload) as [z |] eqn:Hz.
  - destruct (0 <=? z)%Z eqn:Hsign; simpl; eexists; split; try reflexivity;
      simpl; rewrite repeat_char_length; f_equal.
    + apply Z.leb_le in Hsign. lia.
    + apply Z.leb_gt in Hsign. lia.
  - eexists; split; reflexivity.
Qed.

Lemma sample_compact : jwt_compact Sample.crypto.
Proof.
  intros payload secret expiresIn issued. simpl. unfold Sample.sign.
  destruct (userId payload) as [z |]; [| reflexivity].
  destruct (0 <=? z)%Z; simpl; apply repeat_char_no_space.
Qed.

(** ** The profile handler, case by case *)

Section Profile.

Context {crypto : Crypto}.

Variables (req : Request) (w : World) (h token : string).

Hypothesis Hheader : authorization req = Some h.
Hypothesis Hbearer : Full.no_bearer (Some h) = false.
Hypothesis Htoken : nth_error (split " " h) 1 = Some token.

(** [jwt.verify] throws: the catch block answers. *)
Lemma profile_rejected (e : JsError) :
  jwt_verify token (JWT_SECRET (config w)) (now w) = inl e ->
  Full.profile req w =
    (reply 401 [("success", VBool false);
                ("error", VStr "Invalid or expired token")],
     record_event EvJwtVerify w).
Proof.
  intros Hverify.
  unfold Full.profile, try_catch, bind. cbv zeta.
  rewrite Hheader, Hbearer, Htoken.
  unfold jwtVerify, bind, emit. simpl config. simpl now.
  rewrite Hverify. reflexivity.
Qed.

(** [jwt.verify] returns and the lookup runs. *)
Lemma profile_verified (decoded : Payload) :
  jwt_verify token (JWT_SECRET (config w)) (now w) = inr decoded ->
  next_fault w = None ->
  fst (Full.profile req w) =
    match select_profile_by_id (userId decoded) (db w) with
    | [] => reply 404 [("success", VBool false);
                       ("error", VStr "User not found")]
    | row :: _ => reply_ok [("success", VBool true);
                            ("user", profile_row row)]
    end
  /\ db (snd (Full.profile req w)) = db w.
Proof.
  intros Hverify Hfault.
  unfold Full.profile, try_catch, bind. cbv zeta.
  rewrite Hheader, Hbearer, Htoken.
  unfold jwtVerify, bind, emit. simpl config. simpl now.
  rewrite Hverify.
  rewrite pool_query_runs by exact Hfault.
  rewrite reading_result. simpl fst. simpl snd. simpl db at 1. simpl db at 2.
  destruct (select_profile_by_id (userId decoded) (db w)); split; reflexivity.
Qed.

(** [jwt.verify] returns and the lookup is rejected by the store: the
    same catch block answers. *)
Lemma profile_store_fault (decoded : Payload) (e : JsError) :
  jwt_verify token (JWT_SECRET (config w)) (now w) = inr decoded ->
  next_fault w = Some e ->
  fst (Full.profile req w) =
    reply 401 [("success", VBool false);
               ("error", VStr "Invalid or expired token")].
Proof.
  intros Hverify Hfault.
  unfold Full.profile, try_catch, bind. cbv zeta.
  rewrite Hheader, Hbearer, Htoken.
  unfold jwtVerify, bind, emit. simpl config. simpl now.
  rewrite Hverify.
  rewrite (pool_query_fails _ _ _ e) by exact Hfault.
  reflexivity.
Qed.

End Profile.

(** ** From registration to the profile *)

Lemma profile_lookup_finds (i : Z) (row : UserRow) (d : Db) :
  user_id row = i ->
  is_active row = Some true ->
  exists r rest,
    select_profile_by_id (Some i) (append_user row d) = r :: rest
    /\ user_id r = i.
Proof.
  intros Hid Hactive. unfold select_profile_by_id, append_user. simpl users.
  rewrite filter_app. simpl.
  rewrite Hid, Z.eqb_refl, Hactive. simpl.
  destruct (filter _ (users d)) as [| r rest] eqn:Hf.
  - exists row, []. split; [reflexivity | exact Hid].
  - exists r, (rest ++ [row])%list. split; [reflexivity |].
    assert (Hin : In r (r :: rest)) by (left; reflexivity).
    rewrite <- Hf in Hin.
    apply filter_In in Hin. destruct Hin as [_ Hr].
    apply andb_prop in Hr. destruct Hr as [Hr _].
    apply Z.eqb_eq in Hr. exact Hr.
Qed.

(** C3: in [Full], the token of a successful registration, sent as
    [Bearer <token>] to the profile endpoint within the 24 hours of its
    validity while the store is as the registration left it, is answered
    200 with the identifier of the user the registration created.  The
    lookup must meet no store fault, and [jwt] must verify what it signed. *)
Theorem registration_token_resolves
    {crypto : Crypto} (req : Request) (w : World) :
  jwt_roundtrip crypto ->
  jwt_compact crypto ->
  succeeded (fst (Full.register req w)) ->
  next_fault (snd (Full.register req w)) = None ->
  exists token i,
    member "token" (json (fst (Full.register req w))) = Some (VStr token)
    /\ user_id_of (fst (Full.register req w)) = Some (VNum i)
    /\ forall preq elapsed,
         authorization preq = Some ("Bearer " ++ token) ->
         0 <= elapsed < 86400 ->
         status (fst (Full.profile preq
                        (set_now (now w + elapsed) (snd (Full.register req w)))))
         = 200
         /\ user_id_of (fst (Full.profile preq
                               (set_now (now w + elapsed)
                                  (snd (Full.register req w)))))
            = Some (VNum i).
Proof.
  intros Hround Hcompact Hok Hfault.
  destruct (register_succeeded full req w Hok)
    as (pw & _ & _ & Huser & Htoken & Hdb & Hconfig & Hnow & _).
  change (register full req w) with (Full.register req w) in *.
  set (row := new_row full (body req) pw w) in *.
  exists (issued_token full row w), (user_id row).
  split; [exact Htoken | split].
  { unfold user_id_of. rewrite Huser. reflexivity. }
  intros preq elapsed Hauth Helapsed.
  destruct (Full.register req w) as [res w'] eqn:Hreg.
  simpl fst in *; simpl snd in *.
  destruct (Hround {| userId := Some (user_id row); email_claim := user_email row |}
              (JWT_SECRET (config w)) 86400 (now w) (now w + elapsed))
    as (decoded & Hverify & Hdecoded); [lia |].
  destruct (profile_lookup_finds (user_id row) row (db w) eq_refl eq_refl)
    as (r & rest & Hfind & Hr).
  destruct (profile_verified preq (set_now (now w + elapsed) w')
              ("Bearer " ++ issued_token full row w) (issued_token full row w)
              Hauth (bearer_accepted _) (bearer_token _ (Hcompact _ _ _ _))
              decoded)
    as [Hres _].
  { simpl config. simpl now. rewrite Hconfig. exact Hverify. }
  { exact Hfault. }
  rewrite Hres. simpl db. rewrite Hdb, Hdecoded. cbn [userId]. rewrite Hfind.
  unfold user_id_of. simpl. rewrite Hr. split; reflexivity.
Qed.

Lemma registration_token_resolves_witness :
  exists token i,
    member "token"
      (json (fst (Full.register (crypto := Sample.crypto)
                    (Sample.post "/api/auth/register" Sample.alice)
                    (Sample.world Sample.empty_db []))))
    = Some (VStr token)
    /\ user_id_of (fst (Full.register (crypto := Sample.crypto)
                          (Sample.post "/api/auth/register" Sample.alice)
                          (Sample.world Sample.empty_db [])))
       = Some (VNum i)
    /\ forall preq elapsed,
         authorization preq = Some ("Bearer " ++ token) ->
         0 <= elapsed < 86400 ->
         status (fst (Full.profile (crypto := Sample.crypto) preq
                        (set_now (1000 + elapsed)
                           (snd (Full.register (crypto := Sample.crypto)
                                   (Sample.post "/api/auth/register" Sample.alice)
                                   (Sample.world Sample.empty_db []))))))
         = 200
         /\ user_id_of (fst (Full.profile (crypto := Sample.crypto) preq
                               (set_now (1000 + elapsed)
                                  (snd (Full.register (crypto := Sample.crypto)
                                          (Sample.post "/api/auth/register"
                                             Sample.alice)
                                          (Sample.world Sample.empty_db []))))))
            = Some (VNum i).
Proof.
  apply (registration_token_resolves (crypto := Sample.crypto)
           (Sample.post "/api/auth/register" Sample.alice)
           (Sample.world Sample.empty_db [])).
  - exact sample_roundtrip.
  - exact sample_compact.
  - reflexivity.
  - reflexivity.
Defined.

(** ** The error paths of the profile handler *)

Lemma bearer_prefix_accepted (h : string) :
  startsWith h "Bearer " = true -> Full.no_bearer (Some h) = false.
Proof.
  intros H. unfold Full.no_bearer. rewrite H.
  destruct h; [discriminate H | reflexivity].
Qed.

Lemma split_nonempty (sep : ascii) (s : string) : split sep s <> [].
Proof.
  destruct s as [| c rest]; simpl; [discriminate |].
  destruct (Ascii.eqb c sep); [discriminate |].
  destruct (split sep rest); discriminate.
Qed.

(** After [Bearer ] the handler always finds a second piece. *)
Lemma bearer_prefix_token (h : string) :
  startsWith h "Bearer " = true ->
  exists token, nth_error (split " " h) 1 = Some token.
Proof.
  unfold startsWith. intros H.
  do 7 (destruct h as [| ? h]; [discriminate H |];
        simpl in H;
        match type of H with
        | (if ?d then _ else _) = true =>
            destruct d as [<- |]; [| discriminate H]
        end).
  simpl. destruct (split " " h) as [| piece pieces] eqn:Hs.
  - exfalso. exact (split_nonempty _ _ Hs).
  - exists piece. reflexivity.
Qed.

Lemma no_active_user_lookup (i : option Z) (d : Db) :
  (forall u, In u (users d) -> i = Some (user_id u) -> is_active u <> Some true) ->
  select_profile_by_id i d = [].
Proof.
  intros Hnone. unfold select_profile_by_id.
  destruct (filter _ (users d)) as [| r rest] eqn:Hf; [reflexivity |].
  exfalso.
  assert (Hin : In r (r :: rest)) by (left; reflexivity).
  rewrite <- Hf in Hin. apply filter_In in Hin. destruct Hin as [Hin Hr].
  apply andb_prop in Hr. destruct Hr as [Hid Hact].
  apply (Hnone r Hin).
  - destruct i as [i |]; [| discriminate Hid].
    simpl in Hid. apply Z.eqb_eq in Hid. congruence.
  - destruct (is_active r) as [[|] |]; try discriminate Hact. reflexivity.
Qed.

(** C5: the profile handler answers
    - 401 "No valid token provided" and leaves the world as it was when
      the Authorization header is absent or does not start with
      [Bearer ];
    - 401 "Invalid or expired token", without a query, when [jwt.verify]
      throws;
    - 404 when [jwt.verify] returns, the lookup meets no store fault and
      no active user has the identifier of the token. *)
Theorem profile_error_paths {crypto : Crypto} (req : Request) (w : World) :
  ((authorization req = None
    \/ exists h, authorization req = Some h /\ startsWith h "Bearer " = false) ->
   Full.profile req w =
     (reply 401 [("success", VBool false);
                 ("error", VStr "No valid token provided")], w))
  /\ (forall h token e,
        authorization req = Some h ->
        startsWith h "Bearer " = true ->
        nth_error (split " " h) 1 = Some token ->
        jwt_verify token (JWT_SECRET (config w)) (now w) = inl e ->
        fst (Full.profile req w) =
          reply 401 [("success", VBool false);
                     ("error", VStr "Invalid or expired token")]
        /\ db (snd (Full.profile req w)) = db w
        /\ trace (snd (Full.profile req w)) = (trace w ++ [EvJwtVerify])%list)
  /\ (forall h token decoded,
        authorization req = Some h ->
        startsWith h "Bearer " = true ->
        nth_error (split " " h) 1 = Some token ->
        jwt_verify token (JWT_SECRET (config w)) (now w) = inr decoded ->
        next_fault w = None ->
        (forall u, In u (users (db w)) ->
                   userId decoded = Some (user_id u) ->
                   is_active u <> Some true) ->
        fst (Full.profile req w) =
          reply 404 [("success", VBool false);
                     ("error", VStr "User not found")]).
Proof.
  split; [| split].
  - intros H. unfold Full.profile, try_catch. cbv zeta.
    assert (Hno : Full.no_bearer (authorization req) = true).
    { destruct H as [-> | (h & -> & Hh)]; [reflexivity |].
      unfold Full.no_bearer. rewrite Hh. apply orb_true_r. }
    rewrite Hno. reflexivity.
  - intros h token e Hh Hb Ht Hv.
    rewrite (profile_rejected req w h token Hh (bearer_prefix_accepted h Hb) Ht e Hv).
    repeat split.
  - intros h token decoded Hh Hb Ht Hv Hfault Hnone.
    destruct (profile_verified req w h token Hh (bearer_prefix_accepted h Hb) Ht
                decoded Hv Hfault) as [-> _].
    rewrite (no_active_user_lookup _ _ Hnone). reflexivity.
Qed.

Lemma profile_error_paths_witness :
  Full.profile (crypto := Sample.crypto)
    (Sample.get_with "/api/user/profile" None)
    (Sample.world Sample.alice_db [])
  = (reply 401 [("success", VBool false);
                ("error", VStr "No valid token provided")],
     Sample.world Sample.alice_db [])
  /\ fst (Full.profile (crypto := Sample.crypto)
            (Sample.get_with "/api/user/profile" (Some "Bearer junk"))
            (Sample.world Sample.alice_db []))
     = reply 401 [("success", VBool false);
                  ("error", VStr "Invalid or expired token")]
  /\ fst (Full.profile (crypto := Sample.crypto)
            (Sample.get_with "/api/user/profile" (Some "Bearer p11"))
            (Sample.world Sample.alice_db []))
     = reply 404 [("success", VBool false);
                  ("error", VStr "User not found")].
Proof.
  split; [| split].
  - apply (proj1 (profile_error_paths (crypto := Sample.crypto)
                    (Sample.get_with "/api/user/profile" None)
                    (Sample.world Sample.alice_db []))).
    left. reflexivity.
  - apply (proj1 (proj2 (profile_error_paths (crypto := Sample.crypto)
                           (Sample.get_with "/api/user/profile" (Some "Bearer junk"))
                           (Sample.world Sample.alice_db [])))
             "Bearer junk" "junk" (Error "jwt malformed"));
      reflexivity.
  - apply (proj2 (proj2 (profile_error_paths (crypto := Sample.crypto)
                           (Sample.get_with "/api/user/profile" (Some "Bearer p11"))
                           (Sample.world Sample.alice_db [])))
             "Bearer p11" "p11" {| userId := Some 2; email_claim := None |});
      try reflexivity.
    intros u [<- | []] Hid. discriminate Hid.
Defined.

(** ** Store faults *)

(** In every variant, registration, login and the course listing answer
    500 when their first query is rejected by the store (in [Full], once
    validation has passed). *)
Lemma first_query_fault_500
    {crypto : Crypto} (v : Variant) (req : Request) (w : World) (e : JsError) :
  next_fault w = Some e ->
  (v = full -> Full.missing_fields (body req) = false) ->
  (v = full -> Full.missing_credentials (body req) = false) ->
  status (fst (register v req w)) = 500
  /\ status (fst (login v req w)) = 500
  /\ status (fst (courses_handler v req w)) = 500.
Proof.
  intros Hfault Hreg Hlogin.
  destruct v;
    unfold register, login, courses_handler,
      Minimal.register, Minimal.login, Minimal.courses_handler,
      Basic.register, Basic.login, Basic.courses_handler,
      Full.register, Full.login, Full.courses_handler, try_catch, bind;
    cbv zeta;
    try rewrite (Hreg eq_refl); try rewrite (Hlogin eq_refl);
    rewrite !(pool_query_fails _ _ _ e) by exact Hfault;
    repeat split.
Qed.

(** The admin listing and the connectivity test of [Full] do the same. *)
Lemma admin_and_test_db_fault_500 (req : Request) (w : World) (e : JsError) :
  next_fault w = Some e ->
  status (fst (Full.admin_users req w)) = 500
  /\ status (fst (Full.test_db req w)) = 500.
Proof.
  intros Hfault.
  unfold Full.admin_users, Full.test_db, try_catch, bind.
  rewrite !(pool_query_fails _ _ _ e) by exact Hfault.
  split; reflexivity.
Qed.

(** C6 fails on the profile handler: when the token verifies and the
    store rejects the user lookup, the one catch block of the handler
    answers 401 "Invalid or expired token", not 500. *)
Theorem profile_store_fault_is_401
    {crypto : Crypto} (req : Request) (w : World) (h token : string)
    (decoded : Payload) (e : JsError) :
  authorization req = Some h ->
  startsWith h "Bearer " = true ->
  nth_error (split " " h) 1 = Some token ->
  jwt_verify token (JWT_SECRET (config w)) (now w) = inr decoded ->
  next_fault w = Some e ->
  fst (Full.profile req w) =
    reply 401 [("success", VBool false);
               ("error", VStr "Invalid or expired token")].
Proof.
  intros Hh Hb Ht Hv Hfault.
  exact (profile_store_fault req w h token Hh (bearer_prefix_accepted h Hb) Ht
           decoded e Hv Hfault).
Qed.

Lemma profile_store_fault_is_401_witness :
  fst (Full.profile (crypto := Sample.crypto)
         (Sample.get_with "/api/user/profile" (Some "Bearer p1"))
         (Sample.world Sample.alice_db [Some (Error "Connection terminated unexpectedly")]))
  = reply 401 [("success", VBool false);
               ("error", VStr "Invalid or expired token")].
Proof.
  apply (profile_store_fault_is_401 (crypto := Sample.crypto)
           (Sample.get_with "/api/user/profile" (Some "Bearer p1"))
           (Sample.world Sample.alice_db
              [Some (Error "Connection terminated unexpectedly")])
           "Bearer p1" "p1" {| userId := Some 1; email_claim := None |}
           (Error "Connection terminated unexpectedly"));
    reflexivity.
Defined.

(** ** ORDER BY *)

Section OrderBy.

Context {A : Type} (le : A -> A -> bool).

Lemma insert_sorted_permutation (x : A) (l : list A) :
  Permutation (insert_sorted le x l) (x :: l).
Proof.
  induction l as [| y rest IH]; simpl.
  - apply Permutation_refl.
  - destruct (le x y).
    + apply Permutation_refl.
    + apply perm_trans with (y :: x :: rest).
      * apply perm_skip. exact IH.
      * apply perm_swap.
Qed.

Lemma sort_by_permutation (l : list A) : Permutation (sort_by le l) l.
Proof.
  induction l as [| x rest IH]; simpl.
  - apply perm_nil.
  - apply perm_trans with (x :: sort_by le rest).
    + apply insert_sorted_permutation.
    + apply perm_skip. exact IH.
Qed.

(** The order test is total and transitive, as [<=] on a key is. *)
Hypothesis le_total : forall a b, le a b = false -> le b a = true.
Hypothesis le_trans : forall a b c, le a b = true -> le b c = true -> le a c = true.

Lemma insert_sorted_ordered (x : A) (l : list A) :
  StronglySorted (ordered le) l -> StronglySorted (ordered le) (insert_sorted le x l).
Proof.
  induction l as [| y rest IH]; simpl; intros Hs.
  - constructor; constructor.
  - inversion Hs as [| ? ? Hrest Hall]; subst.
    destruct (le x y) eqn:Hxy.
    + constructor; [exact Hs |].
      constructor; [exact Hxy |].
      apply Forall_impl with (P := ordered le y); [| exact Hall].
      intros z Hyz. exact (le_trans x y z Hxy Hyz).
    + constructor; [apply IH; exact Hrest |].
      eapply Permutation_Forall.
      * apply Permutation_sym. apply insert_sorted_permutation.
      * constructor; [exact (le_total x y Hxy) | exact Hall].
Qed.

Lemma sort_by_ordered (l : list A) : StronglySorted (ordered le) (sort_by le l).
Proof.
  induction l as [| x rest IH]; simpl.
  - constructor.
  - apply insert_sorted_ordered. exact IH.
Qed.

End OrderBy.

(** ** The course listing *)

Lemma select_active_courses_ascending (d : Db) :
  StronglySorted ascending (select_active_courses d).
Proof.
  unfold select_active_courses.
  assert (H : StronglySorted (fun a b => by_id a b = true)
                (sort_by by_id
                   (filter (fun c => is_true (course_is_active c)) (courses d)))).
  { apply sort_by_ordered; unfold by_id; intros.
    - apply Z.leb_le. apply Z.leb_gt in H. lia.
    - apply Z.leb_le. apply Z.leb_le in H, H0. lia. }
  induction H as [| a l Hs IH Hall]; constructor; [exact IH |].
  apply Forall_impl with (P := fun b => by_id a b = true); [| exact Hall].
  intros b Hb. apply Z.leb_le. exact Hb.
Qed.

Lemma courses_response (v : Variant) (req : Request) (w : World) :
  next_fault w = None ->
  courses_handler v req w =
    (reply_ok [("success", VBool true);
               ("courses", VArr (map course_row (select_active_courses (db w))))],
     set_faults (tl (faults w)) (record_event (EvQuery SelectActiveCourses) w)).
Proof.
  intros Hfault.
  destruct v;
    unfold courses_handler, Minimal.courses_handler, Basic.courses_handler,
      Full.courses_handler, try_catch, bind;
    rewrite pool_query_runs by exact Hfault;
    destruct w; reflexivity.
Qed.

(** C7: when the query meets no store fault, the course listing returns
    the rows of [courses] whose active flag is true, all of them and only
    them, in ascending order of [id]; the database is unchanged, and a
    second request that meets no fault gets the same response. *)
Theorem courses_listing (v : Variant) (req : Request) (w : World) :
  next_fault w = None ->
  exists rows,
    fst (courses_handler v req w) =
      reply_ok [("success", VBool true);
                ("courses", VArr (map course_row rows))]
    /\ Permutation rows
         (filter (fun c => is_true (course_is_active c)) (courses (db w)))
    /\ StronglySorted ascending rows
    /\ db (snd (courses_handler v req w)) = db w
    /\ (next_fault (snd (courses_handler v req w)) = None ->
        fst (courses_handler v req (snd (courses_handler v req w)))
        = fst (courses_handler v req w)).
Proof.
  intros Hfault.
  exists (select_active_courses (db w)).
  rewrite (courses_response v req w Hfault). simpl fst. simpl snd.
  split; [reflexivity | split; [| split; [| split]]].
  - apply sort_by_permutation.
  - apply select_active_courses_ascending.
  - reflexivity.
  - intros Hagain. rewrite (courses_response v req _ Hagain). reflexivity.
Qed.

Lemma courses_listing_witness :
  exists rows,
    fst (courses_handler basic (Sample.get_with "/api/courses" None)
           (Sample.world Sample.course_db []))
    = reply_ok [("success", VBool true);
                ("courses", VArr (map course_row rows))]
    /\ Permutation rows
         (filter (fun c => is_true (course_is_active c)) (courses Sample.course_db))
    /\ StronglySorted ascending rows
    /\ db (snd (courses_handler basic (Sample.get_with "/api/courses" None)
                  (Sample.world Sample.course_db [])))
       = Sample.course_db
    /\ (next_fault (snd (courses_handler basic (Sample.get_with "/api/courses" None)
                           (Sample.world Sample.course_db []))) = None ->
        fst (courses_handler basic (Sample.get_with "/api/courses" None)
               (snd (courses_handler basic (Sample.get_with "/api/courses" None)
                       (Sample.world Sample.course_db []))))
        = fst (courses_handler basic (Sample.get_with "/api/courses" None)
                 (Sample.world Sample.course_db []))).
Proof.
  apply (courses_listing basic (Sample.get_with "/api/courses" None)
           (Sample.world Sample.course_db [])).
  reflexivity.
Defined.

(** The listing on a concrete table: the inactive row and the row whose
    flag is NULL are left out, the others come back by ascending [id]. *)
Example courses_listing_sample :
  fst (courses_handler full (Sample.get_with "/api/courses" None)
         (Sample.world Sample.course_db []))
  = reply_ok
      [("success", VBool true);
       ("courses",
        VArr [VObj [("id", VNum 1); ("is_active", VBool true);
                    ("title", VStr "Navigation")];
              VObj [("id", VNum 3); ("is_active", VBool true);
                    ("title", VStr "Seamanship")]])].
Proof. reflexivity. Qed.

(** ** Unmatched requests *)



(** The routes the catch-all of [Full] lists are the routes registered
    before it. *)
Example listed_routes_full :
  listed_routes (crypto := Sample.crypto) full
  = [VStr "GET /health"; VStr "GET /api/test-db";
     VStr "POST /api/auth/register"; VStr "POST /api/auth/login";
     VStr "GET /api/courses"; VStr "GET /api/user/profile";
     VStr "GET /api/admin/users"].
Proof. reflexivity. Qed.


(** ** The scenarios of the specification, run on the model *)

(** Registering [alice] on an empty table answers 201 with a token and
    the public fields of the new user. *)
Example scenario_register :
  fst (Full.register (crypto := Sample.crypto)
         (Sample.post "/api/auth/register" Sample.alice)
         (Sample.world Sample.empty_db []))
  = reply 201
      [("success", VBool true);
       ("message", VStr "Registration successful!");
       ("token", VStr "p1");
       ("user", VObj [("id", VNum 1);
                      ("fullName", VStr "A");
                      ("email", VStr "a@x.com");
                      ("classLevel", VStr "1");
                      ("registrationDate", VDate 1000)])].
Proof. reflexivity. Qed.

(** Registering her again, in the world the first registration left,
    answers 400 and adds no row. *)
Example scenario_register_again :
  let w1 := snd (Full.register (crypto := Sample.crypto)
                   (Sample.post "/api/auth/register" Sample.alice)
                   (Sample.world Sample.empty_db [])) in
  fst (Full.register (crypto := Sample.crypto)
         (Sample.post "/api/auth/register" Sample.alice) w1)
  = reply 400 [("success", VBool false);
               ("error", VStr "User already exists with this email")]
  /\ users (db (snd (Full.register (crypto := Sample.crypto)
                       (Sample.post "/api/auth/register" Sample.alice) w1)))
     = [Sample.alice_row].
Proof. split; reflexivity. Qed.

(** A login with the wrong password gets the generic error in each
    variant. *)
Example scenario_login_wrong_password :
  fst (login (crypto := Sample.crypto) minimal
         (Sample.post "/api/auth/login" (Sample.credentials "a@x.com" "wrong"))
         (Sample.world Sample.alice_db []))
  = reply 400 [("error", VStr "Invalid credentials")]
  /\ fst (login (crypto := Sample.crypto) basic
            (Sample.post "/api/auth/login" (Sample.credentials "a@x.com" "wrong"))
            (Sample.world Sample.alice_db []))
     = reply 400 [("error", VStr "Invalid email or password")]
  /\ fst (login (crypto := Sample.crypto) full
            (Sample.post "/api/auth/login" (Sample.credentials "a@x.com" "wrong"))
            (Sample.world Sample.alice_db []))
     = reply 401 [("success", VBool false);
                  ("error", VStr "Invalid email or password")].
Proof. repeat split. Qed.

(** A login with the right password succeeds. *)
Example scenario_login :
  status (fst (login (crypto := Sample.crypto) full
                 (Sample.post "/api/auth/login" (Sample.credentials "a@x.com" "pw"))
                 (Sample.world Sample.alice_db []))) = 200.
Proof. reflexivity. Qed.

(** The profile of [alice], fetched with the token of her registration. *)
Example scenario_profile :
  fst (Full.profile (crypto := Sample.crypto)
         (Sample.get_with "/api/user/profile" (Some "Bearer p1"))
         (Sample.world Sample.alice_db []))
  = reply_ok [("success", VBool true);
              ("user", VObj [("id", VNum 1);
                             ("full_name", VStr "A");
                             ("email", VStr "a@x.com");
                             ("phone", VStr "1");
                             ("class_level", VStr "1");
                             ("registration_date", VDate 1000)])].
Proof. reflexivity. Qed.

(** * Further properties of the handlers *)

(** ** Registration: validation, failure and the calls it makes *)

(** In [Full], a registration with a missing or empty field is answered
    400 "All fields are required" and leaves the world as it was. *)
Theorem register_requires_all_fields
    {crypto : Crypto} (req : Request) (w : World) :
  truthy (fullName (body req)) = false
  \/ truthy (email (body req)) = false
  \/ truthy (phone (body req)) = false
  \/ truthy (classLevel (body req)) = false
  \/ truthy (password (body req)) = false ->
  Full.register req w =
    (reply 400
       [("success", VBool false);
        ("error", VStr "All fields are required (fullName, email, phone, classLevel, password)")],
     w).
Proof.
  intros H. unfold Full.register, try_catch. cbv zeta.
  assert (E : Full.missing_fields (body req) = true).
  { unfold Full.missing_fields.
    destruct H as [-> | [-> | [-> | [-> | ->]]]]; simpl;
      repeat rewrite orb_true_r; reflexivity. }
  rewrite E. reflexivity.
Qed.

Lemma register_requires_all_fields_witness :
  Full.register (crypto := Sample.crypto)
    (Sample.post "/api/auth/register" Sample.alice_no_phone)
    (Sample.world Sample.empty_db [])
  = (reply 400
       [("success", VBool false);
        ("error", VStr "All fields are required (fullName, email, phone, classLevel, password)")],
     Sample.world Sample.empty_db []).
Proof.
  apply (register_requires_all_fields (crypto := Sample.crypto)
           (Sample.post "/api/auth/register" Sample.alice_no_phone)).
  right; right; left. reflexivity.
Defined.

(** Every registration either succeeds, after an existence check that
    found nothing (and, in [Full], a complete body), or answers 400 or
    500 and leaves the database as it was. *)
Lemma register_outcome
    {crypto : Crypto} (v : Variant) (req : Request) (w : World) :
  (succeeded (fst (register v req w))
   /\ select_id_by_email (sql_param (email (body req))) (db w) = []
   /\ (v = full -> Full.missing_fields (body req) = false))
  \/ (~ succeeded (fst (register v req w))
      /\ db (snd (register v req w)) = db w
      /\ (status (fst (register v req w)) = 400
          \/ status (fst (register v req w)) = 500)).
Proof.
  unfold succeeded.
  destruct w as [c dflt d t fs tr].
  destruct v; unfold register, Minimal.register, Basic.register, Full.register,
    try_catch, bind, pool_query, reading, bcryptHash, jwtSign, emit, ret, throw;
    cbv zeta; simpl faults; simpl db;
    try destruct (Full.missing_fields (body req)) eqn:Hmiss;
    destruct fs as [| [e1|] [| [e2|] fs]]; simpl;
    try destruct (select_id_by_email (sql_param (email (body req))) d) eqn:Hsel;
    simpl;
    destruct (password (body req)) as [| | pw | num | flag | items | members]; simpl;
    first [ left; split; [reflexivity | split; [reflexivity |
                    intros Hv; first [discriminate Hv | reflexivity | assumption]]]
          | right; split; [discriminate | split; [reflexivity | auto]] ].
Qed.

(** A registration is all or nothing: either it answers success (201 in
    [Full], 200 otherwise) and the table has gained exactly one row, or
    it answers 400 or 500 and the database is as it was. *)
Theorem register_all_or_nothing
    {crypto : Crypto} (v : Variant) (req : Request) (w : World) :
  (succeeded (fst (register v req w))
   /\ status (fst (register v req w)) = match v with full => 201 | _ => 200 end
   /\ exists row,
        users (db (snd (register v req w))) = (users (db w) ++ [row])%list
        /\ courses (db (snd (register v req w))) = courses (db w))
  \/ (~ succeeded (fst (register v req w))
      /\ db (snd (register v req w)) = db w
      /\ (status (fst (register v req w)) = 400
          \/ status (fst (register v req w)) = 500)).
Proof.
  destruct (register_outcome v req w) as [(Hok & _ & _) | Hko].
  - left. destruct (register_succeeded v req w Hok)
      as (pw & _ & Hstatus & _ & _ & Hdb & _).
    split; [exact Hok | split; [exact Hstatus |]].
    exists (new_row v (body req) pw w). rewrite Hdb. split; reflexivity.
  - right. exact Hko.
Qed.

Lemma emails_append_user (r : UserRow) (d : Db) :
  emails (append_user r d)
  = (emails d ++ match user_email r with Some e => [e] | None => [] end)%list.
Proof.
  unfold emails, append_user. simpl users.
  rewrite flat_map_app. simpl. rewrite app_nil_r. reflexivity.
Qed.

Lemma not_selected_not_held (e : string) (d : Db) :
  select_id_by_email (Some e) d = [] -> ~ In e (emails d).
Proof.
  unfold select_id_by_email, emails. intros Hsel Hin.
  apply in_flat_map in Hin. destruct Hin as (u & Hu & He).
  destruct (user_email u) as [e' |] eqn:Hmail; [| contradiction].
  destruct He as [-> | []].
  assert (Hf : In u (filter (fun u0 => eq_text (user_email u0) (Some e)) (users d))).
  { apply filter_In. split; [exact Hu |].
    rewrite Hmail. simpl. apply String.eqb_refl. }
  apply (in_map user_id) in Hf. rewrite Hsel in Hf. contradiction.
Qed.

Lemma new_row_email {crypto : Crypto} (v : Variant) (b : Body) (pw : string) (w : World) :
  user_email (new_row v b pw w) = sql_param (email b).
Proof. destruct v; reflexivity. Qed.

(** When requests are served one after the other, registration keeps
    the emails of the table distinct: if no two rows share an email
    before a registration, none do after it, whatever the request and
    whatever the store does. *)
Theorem register_keeps_emails_unique
    {crypto : Crypto} (v : Variant) (req : Request) (w : World) :
  unique_emails (db w) ->
  unique_emails (db (snd (register v req w))).
Proof.
  unfold unique_emails. intros Huniq.
  destruct (register_outcome v req w) as [(Hok & Hsel & _) | (_ & Hdb & _)].
  - destruct (register_succeeded v req w Hok) as (pw & _ & _ & _ & _ & Hdb & _).
    rewrite Hdb, emails_append_user, new_row_email.
    destruct (sql_param (email (body req))) as [e |].
    + apply NoDup_app; [exact Huniq | repeat constructor; intros [] |].
      intros x Hx [Heq | []]. subst x.
      exact (not_selected_not_held e (db w) Hsel Hx).
    + rewrite app_nil_r. exact Huniq.
  - rewrite Hdb. exact Huniq.
Qed.

Lemma register_keeps_emails_unique_witness :
  unique_emails
    (db (snd (register (crypto := Sample.crypto) basic
                (Sample.post "/api/auth/register"
                   (Sample.credentials "b@x.com" "pw2"))
                (Sample.world Sample.alice_db [])))).
Proof.
  apply (register_keeps_emails_unique (crypto := Sample.crypto) basic
           (Sample.post "/api/auth/register" (Sample.credentials "b@x.com" "pw2"))
           (Sample.world Sample.alice_db [])).
  unfold unique_emails. simpl.
  constructor; [intros [] | constructor].
Defined.

(** The external calls of a registration are an initial part of: the
    existence query, [bcrypt.hash], the INSERT, [jwt.sign].  So a request
    makes at most one INSERT, and only after the existence query and the
    hash; a successful registration makes all four calls. *)
Theorem register_calls_in_order
    {crypto : Crypto} (v : Variant) (req : Request) (w : World) :
  (exists n,
      trace (snd (register v req w))
      = (trace w ++ firstn n (register_calls v))%list)
  /\ (succeeded (fst (register v req w)) ->
      trace (snd (register v req w)) = (trace w ++ register_calls v)%list).
Proof.
  unfold succeeded.
  destruct w as [c dflt d t fs tr].
  destruct v; unfold register, Minimal.register, Basic.register, Full.register,
    try_catch, bind, pool_query, reading, bcryptHash, jwtSign, emit, ret, throw;
    cbv zeta; simpl faults; simpl db;
    try destruct (Full.missing_fields (body req));
    destruct fs as [| [e1|] [| [e2|] fs]]; simpl;
    try destruct (0 <? List.length _)%nat; simpl;
    destruct (password (body req)) as [| | pw | num | flag | items | members]; simpl;
    (split;
     [ first [ exists 0%nat; simpl; rewrite app_nil_r; reflexivity
             | exists 1%nat; rewrite <- ?app_assoc; reflexivity
             | exists 2%nat; rewrite <- ?app_assoc; reflexivity
             | exists 3%nat; rewrite <- ?app_assoc; reflexivity
             | exists 4%nat; rewrite <- ?app_assoc; reflexivity ]
     | first [ discriminate | intros _; rewrite <- ?app_assoc; reflexivity ] ]).
Qed.

Lemma register_calls_in_order_witness :
  trace (snd (register (crypto := Sample.crypto) full
                (Sample.post "/api/auth/register" Sample.alice)
                (Sample.world Sample.empty_db [])))
  = [EvQuery SelectUserIdByEmail; EvBcryptHash; EvQuery InsertUserFull; EvJwtSign].
Proof.
  apply (proj2 (register_calls_in_order (crypto := Sample.crypto) full
                  (Sample.post "/api/auth/register" Sample.alice)
                  (Sample.world Sample.empty_db []))).
  reflexivity.
Defined.

(** ** Login *)

Lemma eq_text_true (col param : option string) :
  eq_text col param = true -> col = param /\ exists e, col = Some e.
Proof.
  destruct col as [a |], param as [b |]; simpl; try discriminate.
  intros H. apply String.eqb_eq in H. subst b. split; [reflexivity | eauto].
Qed.

Lemma is_true_true (b : option bool) : is_true b = true -> b = Some true.
Proof. destruct b as [[|] |]; simpl; congruence. Qed.

Lemma find_user_head (v : Variant) (p : option string) (d : Db)
    (row : UserRow) (rest : list UserRow) :
  find_user v p d = row :: rest ->
  In row (users d)
  /\ user_email row = p
  /\ (exists e, user_email row = Some e)
  /\ (v = full -> is_active row = Some true).
Proof.
  intros Hfind.
  assert (Hin : In row (find_user v p d)) by (rewrite Hfind; left; reflexivity).
  destruct v; simpl in Hin; unfold select_user_by_email,
    select_active_user_by_email in Hin;
    apply filter_In in Hin; destruct Hin as [Hin Hcond];
    try (apply andb_prop in Hcond; destruct Hcond as [Hcond Hact]);
    destruct (eq_text_true _ _ Hcond) as [Heq Hsome];
    (split; [exact Hin | split; [exact Heq | split; [exact Hsome |]]]);
    intros Hv; try discriminate Hv.
  apply is_true_true. exact Hact.
Qed.

(** What a successful login went through. *)
Lemma login_succeeded
    {crypto : Crypto} (v : Variant) (req : Request) (w : World) :
  succeeded (fst (login v req w)) ->
  exists pw row rest h,
    password (body req) = FStr pw
    /\ find_user v (sql_param (email (body req))) (db w) = row :: rest
    /\ password_hash row = Some h
    /\ bcrypt_compare pw h = true
    /\ status (fst (login v req w)) = 200
    /\ member "user" (json (fst (login v req w))) = Some (login_view v row)
    /\ member "token" (json (fst (login v req w)))
       = Some (VStr (issued_token v row w))
    /\ db (snd (login v req w)) = db w
    /\ config (snd (login v req w)) = config w
    /\ now (snd (login v req w)) = now w.
Proof.
  unfold succeeded.
  destruct w as [c dflt d t fs tr].
  destruct v; unfold login, Minimal.login, Basic.login, Full.login,
    try_catch, bind, pool_query, reading, bcryptCompare, jwtSign, emit, ret, throw;
    cbv zeta; simpl faults; simpl db;
    try destruct (Full.missing_credentials (body req));
    destruct fs as [| [e1|] fs]; simpl; try discriminate;
    match goal with
    | |- context [find_user ?v ?p ?d] => idtac
    | |- context [select_user_by_email ?p ?d] =>
        destruct (select_user_by_email p d) as [| row rest] eqn:Hfind
    | |- context [select_active_user_by_email ?p ?d] =>
        destruct (select_active_user_by_email p d) as [| row rest] eqn:Hfind
    end; simpl; try discriminate;
    destruct (password (body req)) as [| | pw | num | flag | items | members];
    destruct (password_hash row) as [h |] eqn:Hhash; simpl; try discriminate;
    destruct (bcrypt_compare pw h) eqn:Hcmp; simpl; try discriminate;
    intros _; exists pw, row, rest, h; repeat split; assumption.
Qed.

(** A login only succeeds for a user that is in the table under the
    email of the request (as the driver sends it: a string as it is),
    whose stored hash [bcrypt.compare] accepts for the password of the
    request, a string, and, in [Full], whose active flag is true.  The
    response carries that user's identifier, its [user] object has no
    [password_hash] member, and the database is unchanged. *)
Theorem login_is_sound
    {crypto : Crypto} (v : Variant) (req : Request) (w : World) :
  succeeded (fst (login v req w)) ->
  exists row e pw h,
    In row (users (db w))
    /\ sql_param (email (body req)) = Some e
    /\ user_email row = Some e
    /\ password (body req) = FStr pw
    /\ password_hash row = Some h
    /\ bcrypt_compare pw h = true
    /\ (v = full -> is_active row = Some true)
    /\ user_id_of (fst (login v req w)) = Some (VNum (user_id row))
    /\ (forall u, member "user" (json (fst (login v req w))) = Some u ->
                  member "password_hash" u = None)
    /\ db (snd (login v req w)) = db w.
Proof.
  intros Hok.
  destruct (login_succeeded v req w Hok)
    as (pw & row & rest & h & Hpw & Hfind & Hhash & Hcmp & _ & Huser & _ & Hdb & _).
  destruct (find_user_head v _ _ _ _ Hfind) as (Hin & Hmail & (e & He) & Hact).
  assert (Hfield : sql_param (email (body req)) = Some e) by congruence.
  exists row, e, pw, h.
  repeat (split; [assumption |]).
  split; [| split; [| exact Hdb]].
  - unfold user_id_of. rewrite Huser. destruct v; reflexivity.
  - intros u Hu. rewrite Huser in Hu. injection Hu as <-. destruct v; reflexivity.
Qed.

Lemma login_is_sound_witness :
  exists row e pw h,
    In row (users Sample.alice_db)
    /\ sql_param (crypto := Sample.crypto)
         (email (Sample.credentials "a@x.com" "pw")) = Some e
    /\ user_email row = Some e
    /\ password (Sample.credentials "a@x.com" "pw") = FStr pw
    /\ password_hash row = Some h
    /\ bcrypt_compare (Crypto := Sample.crypto) pw h = true
    /\ (full = full -> is_active row = Some true)
    /\ user_id_of (fst (login (crypto := Sample.crypto) full
                          (Sample.post "/api/auth/login"
                             (Sample.credentials "a@x.com" "pw"))
                          (Sample.world Sample.alice_db [])))
       = Some (VNum (user_id row))
    /\ (forall u,
          member "user"
            (json (fst (login (crypto := Sample.crypto) full
                          (Sample.post "/api/auth/login"
                             (Sample.credentials "a@x.com" "pw"))
                          (Sample.world Sample.alice_db []))))
          = Some u ->
          member "password_hash" u = None)
    /\ db (snd (login (crypto := Sample.crypto) full
                  (Sample.post "/api/auth/login"
                     (Sample.credentials "a@x.com" "pw"))
                  (Sample.world Sample.alice_db [])))
       = Sample.alice_db.
Proof.
  apply (login_is_sound (crypto := Sample.crypto) full
           (Sample.post "/api/auth/login" (Sample.credentials "a@x.com" "pw"))
           (Sample.world Sample.alice_db [])).
  reflexivity.
Defined.

(** The response of a login that passes every test of the handler. *)
Lemma login_on_match
    {crypto : Crypto} (v : Variant) (req : Request) (w : World)
    (row : UserRow) (rest : list UserRow) (pw h : string) :
  (v = full -> Full.missing_credentials (body req) = false) ->
  next_fault w = None ->
  find_user v (sql_param (email (body req))) (db w) = row :: rest ->
  password (body req) = FStr pw ->
  password_hash row = Some h ->
  bcrypt_compare pw h = true ->
  status (fst (login v req w)) = 200
  /\ member "success" (json (fst (login v req w))) = Some (VBool true)
  /\ member "user" (json (fst (login v req w))) = Some (login_view v row)
  /\ member "token" (json (fst (login v req w)))
     = Some (VStr (issued_token v row w)).
Proof.
  intros Hvalid Hfault Hfind Hpw Hhash Hcmp.
  destruct v; simpl in Hfind;
    unfold login, Minimal.login, Basic.login, Full.login, try_catch, bind;
    cbv zeta;
    try rewrite (Hvalid eq_refl);
    rewrite pool_query_runs by assumption; rewrite reading_result;
    simpl fst; simpl snd; simpl db at 1;
    rewrite Hfind;
    unfold bcryptCompare, jwtSign, bind, emit; rewrite Hpw, Hhash; unfold ret;
    rewrite Hcmp; simpl;
    destruct w; repeat split.
Qed.

(** When the lookup meets no store fault (and, in [Full], email and
    password are non-empty), a login whose email finds a user and whose
    password [bcrypt.compare] accepts against the hash of the first row
    found succeeds: status 200, that row's identifier, and a token signed
    for it. *)
Theorem login_accepts
    {crypto : Crypto} (v : Variant) (req : Request) (w : World)
    (row : UserRow) (rest : list UserRow) (pw h : string) :
  (v = full -> Full.missing_credentials (body req) = false) ->
  next_fault w = None ->
  find_user v (sql_param (email (body req))) (db w) = row :: rest ->
  password (body req) = FStr pw ->
  password_hash row = Some h ->
  bcrypt_compare pw h = true ->
  succeeded (fst (login v req w))
  /\ status (fst (login v req w)) = 200
  /\ user_id_of (fst (login v req w)) = Some (VNum (user_id row))
  /\ member "token" (json (fst (login v req w)))
     = Some (VStr (issued_token v row w)).
Proof.
  intros Hvalid Hfault Hfind Hpw Hhash Hcmp.
  destruct (login_on_match v req w row rest pw h Hvalid Hfault Hfind Hpw Hhash Hcmp)
    as (Hstatus & Hsuccess & Huser & Htoken).
  split; [exact Hsuccess | split; [exact Hstatus | split; [| exact Htoken]]].
  unfold user_id_of. rewrite Huser. destruct v; reflexivity.
Qed.

Lemma login_accepts_witness :
  succeeded (fst (login (crypto := Sample.crypto) basic
                    (Sample.post "/api/auth/login"
                       (Sample.credentials "a@x.com" "pw"))
                    (Sample.world Sample.alice_db [])))
  /\ status (fst (login (crypto := Sample.crypto) basic
                    (Sample.post "/api/auth/login"
                       (Sample.credentials "a@x.com" "pw"))
                    (Sample.world Sample.alice_db []))) = 200
  /\ user_id_of (fst (login (crypto := Sample.crypto) basic
                        (Sample.post "/api/auth/login"
                           (Sample.credentials "a@x.com" "pw"))
                        (Sample.world Sample.alice_db [])))
     = Some (VNum 1)
  /\ member "token"
       (json (fst (login (crypto := Sample.crypto) basic
                     (Sample.post "/api/auth/login"
                        (Sample.credentials "a@x.com" "pw"))
                     (Sample.world Sample.alice_db []))))
     = Some (VStr "p1").
Proof.
  apply (login_accepts (crypto := Sample.crypto) basic
           (Sample.post "/api/auth/login" (Sample.credentials "a@x.com" "pw"))
           (Sample.world Sample.alice_db []) Sample.alice_row [] "pw" "$2a$pw").
  - discriminate.
  - reflexivity.
  - reflexivity.
  - reflexivity.
  - reflexivity.
  - reflexivity.
Defined.

(** ** Registration followed by other requests *)

Lemma none_selected (p : option string) (d : Db) :
  select_id_by_email p d = [] ->
  filter (fun u => eq_text (user_email u) p) (users d) = [].
Proof.
  unfold select_id_by_email. intros H.
  destruct (filter _ (users d)); [reflexivity | discriminate H].
Qed.

Lemma filter_and_nil {A : Type} (f g : A -> bool) (l : list A) :
  filter f l = [] -> filter (fun x => f x && g x) l = [].
Proof.
  induction l as [| x l IH]; simpl; [reflexivity |].
  destruct (f x); simpl; [discriminate | exact IH].
Qed.

(** After a registration inserted [r] under an email nobody had, the
    lookup of the login handler finds [r] and nothing else. *)
Lemma find_user_after_insert (v : Variant) (e : string) (r : UserRow) (d : Db) :
  select_id_by_email (Some e) d = [] ->
  user_email r = Some e ->
  (v = full -> is_active r = Some true) ->
  find_user v (Some e) (append_user r d) = [r].
Proof.
  intros Hsel Hmail Hact. apply none_selected in Hsel.
  destruct v; simpl; unfold select_user_by_email, select_active_user_by_email,
    append_user; simpl users; rewrite filter_app; simpl;
    rewrite Hmail; simpl; rewrite String.eqb_refl;
    try rewrite (Hact eq_refl); simpl;
    try rewrite (filter_and_nil _ _ _ Hsel); try rewrite Hsel; reflexivity.
Qed.

(** Register, then log in: after a successful registration under the
    email [e], a login with the same email and password, on the world
    the registration left, succeeds and names the same user.  The login
    lookup must meet no store fault, and [bcrypt] must accept a password
    against its own hash. *)
Theorem register_then_login
    {crypto : Crypto} (v : Variant) (req lreq : Request) (w : World) (e : string) :
  bcrypt_accepts_own_hash crypto ->
  succeeded (fst (register v req w)) ->
  email (body req) = FStr e ->
  email (body lreq) = email (body req) ->
  password (body lreq) = password (body req) ->
  next_fault (snd (register v req w)) = None ->
  succeeded (fst (login v lreq (snd (register v req w))))
  /\ user_id_of (fst (login v lreq (snd (register v req w))))
     = user_id_of (fst (register v req w)).
Proof.
  intros Hbcrypt Hok He Hmail Hpass Hfault.
  destruct (register_outcome v req w) as [(_ & Hsel & Hfields) | (Hko & _)];
    [| contradiction].
  destruct (register_succeeded v req w Hok)
    as (pw & Hpw & _ & Huser & _ & Hdb & _).
  set (row := new_row v (body req) pw w) in *.
  assert (Hrow_mail : user_email row = Some e).
  { unfold row. rewrite new_row_email, He. reflexivity. }
  assert (Hrow_hash : password_hash row = Some (bcrypt_hash pw 10)).
  { unfold row. destruct v; reflexivity. }
  assert (Hrow_active : v = full -> is_active row = Some true).
  { intros ->. reflexivity. }
  rewrite He in Hsel. simpl in Hsel.
  destruct (login_on_match v lreq (snd (register v req w)) row [] pw
              (bcrypt_hash pw 10)) as (_ & Hlogin & Hview & _).
  - intros ->. specialize (Hfields eq_refl).
    unfold Full.missing_fields in Hfields. unfold Full.missing_credentials.
    rewrite Hmail, Hpass.
    destruct (truthy (fullName (body req))), (truthy (email (body req))),
      (truthy (phone (body req))), (truthy (classLevel (body req))),
      (truthy (password (body req))); simpl in *; congruence.
  - exact Hfault.
  - rewrite Hmail, He, Hdb. simpl sql_param.
    apply find_user_after_insert; assumption.
  - rewrite Hpass. exact Hpw.
  - exact Hrow_hash.
  - apply Hbcrypt.
  - split; [exact Hlogin |].
    unfold user_id_of. rewrite Hview, Huser.
    destruct v; reflexivity.
Qed.

Lemma sample_accepts_own_hash : bcrypt_accepts_own_hash Sample.crypto.
Proof. intros s rounds. simpl. apply String.eqb_refl. Qed.

Lemma register_then_login_witness :
  succeeded
    (fst (login (crypto := Sample.crypto) minimal
            (Sample.post "/api/auth/login" (Sample.credentials "a@x.com" "pw"))
            (snd (register (crypto := Sample.crypto) minimal
                    (Sample.post "/api/auth/register" Sample.alice)
                    (Sample.world Sample.empty_db [])))))
  /\ user_id_of
       (fst (login (crypto := Sample.crypto) minimal
               (Sample.post "/api/auth/login" (Sample.credentials "a@x.com" "pw"))
               (snd (register (crypto := Sample.crypto) minimal
                       (Sample.post "/api/auth/register" Sample.alice)
                       (Sample.world Sample.empty_db [])))))
     = user_id_of
         (fst (register (crypto := Sample.crypto) minimal
                 (Sample.post "/api/auth/register" Sample.alice)
                 (Sample.world Sample.empty_db []))).
Proof.
  apply (register_then_login (crypto := Sample.crypto) minimal
           (Sample.post "/api/auth/register" Sample.alice)
           (Sample.post "/api/auth/login" (Sample.credentials "a@x.com" "pw"))
           (Sample.world Sample.empty_db []) "a@x.com").
  - exact sample_accepts_own_hash.
  - reflexivity.
  - reflexivity.
  - reflexivity.
  - reflexivity.
  - reflexivity.
Defined.

(** Register twice: after a successful registration under the email
    [e], a second registration under [e] (complete, in [Full]) whose
    existence query meets no store fault is answered 400 "User already
    exists" and adds no row. *)
Theorem register_twice
    {crypto : Crypto} (v : Variant) (req req2 : Request) (w : World) (e : string) :
  succeeded (fst (register v req w)) ->
  email (body req) = FStr e ->
  email (body req2) = FStr e ->
  (v = full -> Full.missing_fields (body req2) = false) ->
  next_fault (snd (register v req w)) = None ->
  status (fst (register v req2 (snd (register v req w)))) = 400
  /\ (exists msg,
        error_of (fst (register v req2 (snd (register v req w)))) = Some (VStr msg)
        /\ startsWith msg "User already exists" = true)
  /\ db (snd (register v req2 (snd (register v req w))))
     = db (snd (register v req w)).
Proof.
  intros Hok He He2 Hfields Hfault.
  destruct (register_succeeded v req w Hok) as (pw & _ & _ & _ & _ & Hdb & _).
  assert (Htaken : email_taken e (db (snd (register v req w)))).
  { rewrite Hdb. exists (new_row v (body req) pw w). split.
    - unfold append_user. simpl. apply in_or_app. right. left. reflexivity.
    - rewrite new_row_email, He. reflexivity. }
  apply email_taken_found in Htaken.
  destruct (register v req w) as [res w1]. simpl fst in *. simpl snd in *.
  destruct v; unfold register, Minimal.register, Basic.register, Full.register,
    try_catch, bind; cbv zeta;
    try rewrite (Hfields eq_refl);
    rewrite pool_query_runs by assumption; rewrite reading_result;
    rewrite He2; simpl sql_param; simpl fst; simpl snd;
    simpl db at 1; rewrite Htaken; simpl;
    (split; [reflexivity | split; [eexists; split; reflexivity | reflexivity]]).
Qed.

Lemma register_twice_witness :
  status (fst (register (crypto := Sample.crypto) basic
                 (Sample.post "/api/auth/register" Sample.alice)
                 (snd (register (crypto := Sample.crypto) basic
                         (Sample.post "/api/auth/register" Sample.alice)
                         (Sample.world Sample.empty_db []))))) = 400
  /\ (exists msg,
        error_of (fst (register (crypto := Sample.crypto) basic
                         (Sample.post "/api/auth/register" Sample.alice)
                         (snd (register (crypto := Sample.crypto) basic
                                 (Sample.post "/api/auth/register" Sample.alice)
                                 (Sample.world Sample.empty_db [])))))
        = Some (VStr msg)
        /\ startsWith msg "User already exists" = true)
  /\ db (snd (register (crypto := Sample.crypto) basic
                (Sample.post "/api/auth/register" Sample.alice)
                (snd (register (crypto := Sample.crypto) basic
                        (Sample.post "/api/auth/register" Sample.alice)
                        (Sample.world Sample.empty_db [])))))
     = db (snd (register (crypto := Sample.crypto) basic
                  (Sample.post "/api/auth/register" Sample.alice)
                  (Sample.world Sample.empty_db []))).
Proof.
  apply (register_twice (crypto := Sample.crypto) basic
           (Sample.post "/api/auth/register" Sample.alice)
           (Sample.post "/api/auth/register" Sample.alice)
           (Sample.world Sample.empty_db []) "a@x.com").
  - reflexivity.
  - reflexivity.
  - reflexivity.
  - discriminate.
  - reflexivity.
Defined.

Lemma profile_lookup_member (row : UserRow) (d : Db) :
  In row (users d) ->
  is_active row = Some true ->
  exists r rest,
    select_profile_by_id (Some (user_id row)) d = r :: rest
    /\ user_id r = user_id row.
Proof.
  intros Hin Hactive. unfold select_profile_by_id.
  assert (Hf : In row (filter (fun u => eq_id (user_id u) (Some (user_id row))
                                        && is_true (is_active u)) (users d))).
  { apply filter_In. split; [exact Hin |].
    simpl. rewrite Z.eqb_refl, Hactive. reflexivity. }
  destruct (filter _ (users d)) as [| r rest] eqn:Hfilter; [contradiction |].
  exists r, rest. split; [reflexivity |].
  assert (Hr : In r (r :: rest)) by (left; reflexivity).
  rewrite <- Hfilter in Hr. apply filter_In in Hr. destruct Hr as [_ Hr].
  apply andb_prop in Hr. destruct Hr as [Hr _].
  simpl in Hr. apply Z.eqb_eq in Hr. exact Hr.
Qed.

(** Log in, then fetch the profile: in [Full], the token of a
    successful login, sent as [Bearer <token>] within 24 hours to the
    world the login left, is answered 200 with the identifier of the user
    who logged in.  The profile lookup must meet no store fault, and [jwt]
    must verify what it signed. *)
Theorem login_token_resolves
    {crypto : Crypto} (req : Request) (w : World) :
  jwt_roundtrip crypto ->
  jwt_compact crypto ->
  succeeded (fst (Full.login req w)) ->
  next_fault (snd (Full.login req w)) = None ->
  exists token i,
    member "token" (json (fst (Full.login req w))) = Some (VStr token)
    /\ user_id_of (fst (Full.login req w)) = Some (VNum i)
    /\ forall preq elapsed,
         authorization preq = Some ("Bearer " ++ token) ->
         0 <= elapsed < 86400 ->
         status (fst (Full.profile preq
                        (set_now (now w + elapsed) (snd (Full.login req w)))))
         = 200
         /\ user_id_of (fst (Full.profile preq
                               (set_now (now w + elapsed)
                                  (snd (Full.login req w)))))
            = Some (VNum i).
Proof.
  intros Hround Hcompact Hok Hfault.
  destruct (login_succeeded full req w Hok)
    as (pw & row & rest & h & _ & Hfind & _ & _ & _ & Huser & Htoken & Hdb
        & Hconfig & _).
  change (login full req w) with (Full.login req w) in *.
  destruct (find_user_head full _ _ _ _ Hfind) as (Hin & _ & _ & Hact).
  specialize (Hact eq_refl).
  exists (issued_token full row w), (user_id row).
  split; [exact Htoken | split].
  { unfold user_id_of. rewrite Huser. reflexivity. }
  intros preq elapsed Hauth Helapsed.
  destruct (Full.login req w) as [res w'] eqn:Hlogin.
  simpl fst in *; simpl snd in *.
  destruct (Hround {| userId := Some (user_id row); email_claim := user_email row |}
              (JWT_SECRET (config w)) 86400 (now w) (now w + elapsed))
    as (decoded & Hverify & Hdecoded); [lia |].
  destruct (profile_lookup_member row (db w) Hin Hact) as (r & tail & Hlookup & Hr).
  destruct (profile_verified preq (set_now (now w + elapsed) w')
              ("Bearer " ++ issued_token full row w) (issued_token full row w)
              Hauth (bearer_accepted _) (bearer_token _ (Hcompact _ _ _ _))
              decoded)
    as [Hres _].
  { simpl config. simpl now. rewrite Hconfig. exact Hverify. }
  { exact Hfault. }
  rewrite Hres. simpl db. rewrite Hdb, Hdecoded. cbn [userId]. rewrite Hlookup.
  unfold user_id_of. simpl. rewrite Hr. split; reflexivity.
Qed.

Lemma login_token_resolves_witness :
  exists token i,
    member "token"
      (json (fst (Full.login (crypto := Sample.crypto)
                    (Sample.post "/api/auth/login"
                       (Sample.credentials "a@x.com" "pw"))
                    (Sample.world Sample.alice_db []))))
    = Some (VStr token)
    /\ user_id_of (fst (Full.login (crypto := Sample.crypto)
                          (Sample.post "/api/auth/login"
                             (Sample.credentials "a@x.com" "pw"))
                          (Sample.world Sample.alice_db [])))
       = Some (VNum i)
    /\ forall preq elapsed,
         authorization preq = Some ("Bearer " ++ token) ->
         0 <= elapsed < 86400 ->
         status (fst (Full.profile (crypto := Sample.crypto) preq
                        (set_now (1000 + elapsed)
                           (snd (Full.login (crypto := Sample.crypto)
                                   (Sample.post "/api/auth/login"
                                      (Sample.credentials "a@x.com" "pw"))
                                   (Sample.world Sample.alice_db []))))))
         = 200
         /\ user_id_of (fst (Full.profile (crypto := Sample.crypto) preq
                               (set_now (1000 + elapsed)
                                  (snd (Full.login (crypto := Sample.crypto)
                                          (Sample.post "/api/auth/login"
                                             (Sample.credentials "a@x.com" "pw"))
                                          (Sample.world Sample.alice_db []))))))
            = Some (VNum i).
Proof.
  apply (login_token_resolves (crypto := Sample.crypto)
           (Sample.post "/api/auth/login" (Sample.credentials "a@x.com" "pw"))
           (Sample.world Sample.alice_db [])).
  - exact sample_roundtrip.
  - exact sample_compact.
  - reflexivity.
  - reflexivity.
Defined.

Lemma profile_lookup_fresh (row : UserRow) (d : Db) :
  next_id_unused d ->
  user_id row = users_id_seq d ->
  is_active row = Some true ->
  select_profile_by_id (Some (users_id_seq d)) (append_user row d) = [row].
Proof.
  unfold next_id_unused, select_profile_by_id, append_user. simpl users.
  intros Hfresh Hid Hactive. rewrite filter_app. simpl.
  rewrite Hid, Z.eqb_refl, Hactive. simpl.
  replace (filter _ (users d)) with (@nil UserRow); [reflexivity |].
  symmetry. induction Hfresh as [| u l Hu _ IH]; simpl; [reflexivity |].
  apply Z.eqb_neq in Hu. rewrite Hu. simpl. exact IH.
Qed.

(** Register, then fetch the profile: in [Full], when the identifier the
    sequence hands out is not yet in the table, the profile fetched with
    the token of the registration shows the name, email, phone and class
    level exactly as the request gave them, the new identifier and the
    time of the registration. *)
Theorem registered_profile_round_trip
    {crypto : Crypto} (req : Request) (w : World) (n e p c token : string) :
  jwt_roundtrip crypto ->
  jwt_compact crypto ->
  succeeded (fst (Full.register req w)) ->
  member "token" (json (fst (Full.register req w))) = Some (VStr token) ->
  next_id_unused (db w) ->
  next_fault (snd (Full.register req w)) = None ->
  fullName (body req) = FStr n ->
  email (body req) = FStr e ->
  phone (body req) = FStr p ->
  classLevel (body req) = FStr c ->
  forall preq elapsed,
    authorization preq = Some ("Bearer " ++ token) ->
    0 <= elapsed < 86400 ->
    fst (Full.profile preq
           (set_now (now w + elapsed) (snd (Full.register req w))))
    = reply_ok
        [("success", VBool true);
         ("user", VObj [("id", VNum (users_id_seq (db w)));
                        ("full_name", VStr n);
                        ("email", VStr e);
                        ("phone", VStr p);
                        ("class_level", VStr c);
                        ("registration_date", VDate (now w))])].
Proof.
  intros Hround Hcompact Hok Htok Hfresh Hfault Hn He Hp Hc preq elapsed Hauth Hel.
  destruct (register_succeeded full req w Hok)
    as (pw & _ & _ & _ & Htoken & Hdb & Hconfig & _).
  change (register full req w) with (Full.register req w) in *.
  set (row := new_row full (body req) pw w) in *.
  rewrite Htoken in Htok. injection Htok as <-.
  destruct (Full.register req w) as [res w'] eqn:Hreg.
  simpl fst in *; simpl snd in *.
  destruct (Hround {| userId := Some (user_id row); email_claim := user_email row |}
              (JWT_SECRET (config w)) 86400 (now w) (now w + elapsed))
    as (decoded & Hverify & Hdecoded); [lia |].
  destruct (profile_verified preq (set_now (now w + elapsed) w')
              ("Bearer " ++ issued_token full row w) (issued_token full row w)
              Hauth (bearer_accepted _) (bearer_token _ (Hcompact _ _ _ _))
              decoded)
    as [Hres _].
  { simpl config. simpl now. rewrite Hconfig. exact Hverify. }
  { exact Hfault. }
  rewrite Hres. simpl db. rewrite Hdb, Hdecoded. cbn [userId].
  change (user_id row) with (users_id_seq (db w)).
  rewrite (profile_lookup_fresh row (db w) Hfresh eq_refl eq_refl).
  unfold row, new_row, profile_row, inserted_row_full. simpl.
  rewrite Hn, He, Hp, Hc. reflexivity.
Qed.

Lemma registered_profile_round_trip_witness :
  fst (Full.profile (crypto := Sample.crypto)
         (Sample.get_with "/api/user/profile" (Some "Bearer p1"))
         (set_now (1000 + 60)
            (snd (Full.register (crypto := Sample.crypto)
                    (Sample.post "/api/auth/register" Sample.alice)
                    (Sample.world Sample.empty_db [])))))
  = reply_ok
      [("success", VBool true);
       ("user", VObj [("id", VNum 1);
                      ("full_name", VStr "A");
                      ("email", VStr "a@x.com");
                      ("phone", VStr "1");
                      ("class_level", VStr "1");
                      ("registration_date", VDate 1000)])].
Proof.
  apply (registered_profile_round_trip (crypto := Sample.crypto)
           (Sample.post "/api/auth/register" Sample.alice)
           (Sample.world Sample.empty_db []) "A" "a@x.com" "1" "1" "p1"
           sample_roundtrip sample_compact eq_refl eq_refl
           (Forall_nil _) eq_refl eq_refl eq_refl eq_refl eq_refl
           (Sample.get_with "/api/user/profile" (Some "Bearer p1")) 60).
  - reflexivity.
  - lia.
Defined.

(** ** The profile handler *)

(** A profile is only served to a request whose Authorization header
    starts with [Bearer ] and whose token [jwt.verify] accepts; the user
    served is in the table, is active and has the identifier of the
    token; the [user] object holds the six columns of the query and no
    [password_hash]; the database is unchanged. *)
Theorem profile_is_sound {crypto : Crypto} (req : Request) (w : World) :
  status (fst (Full.profile req w)) = 200 ->
  exists h token decoded row,
    authorization req = Some h
    /\ startsWith h "Bearer " = true
    /\ nth_error (split " " h) 1 = Some token
    /\ jwt_verify token (JWT_SECRET (config w)) (now w) = inr decoded
    /\ In row (users (db w))
    /\ userId decoded = Some (user_id row)
    /\ is_active row = Some true
    /\ member "user" (json (fst (Full.profile req w))) = Some (profile_row row)
    /\ member "password_hash" (profile_row row) = None
    /\ db (snd (Full.profile req w)) = db w.
Proof.
  destruct w as [c dflt d t fs tr].
  unfold Full.profile, try_catch, bind. cbv zeta.
  destruct (authorization req) as [h |] eqn:Hh; [| discriminate].
  destruct (Full.no_bearer (Some h)) eqn:Hb; [discriminate |].
  destruct (nth_error (split " " h) 1) as [token |] eqn:Ht; [| discriminate].
  unfold jwtVerify, bind, emit. simpl config. simpl now.
  destruct (jwt_verify token (JWT_SECRET c) t) as [e | decoded] eqn:Hv;
    [discriminate |].
  unfold pool_query, reading. simpl faults.
  destruct fs as [| [e1|] fs]; simpl; try discriminate;
    destruct (select_profile_by_id (userId decoded) d) as [| row rest] eqn:Hsel;
    simpl; try discriminate;
    intros _; exists h, token, decoded, row;
    assert (Hin : In row (select_profile_by_id (userId decoded) d))
      by (rewrite Hsel; left; reflexivity);
    unfold select_profile_by_id in Hin; apply filter_In in Hin;
    destruct Hin as [Hin Hcond]; apply andb_prop in Hcond;
    destruct Hcond as [Hid Hact];
    (destruct (userId decoded) as [i |]; [| discriminate Hid]);
    simpl in Hid; apply Z.eqb_eq in Hid; apply is_true_true in Hact;
    unfold Full.no_bearer in Hb; apply orb_false_elim in Hb;
    destruct Hb as [_ Hb]; apply negb_false_iff in Hb;
    repeat split; try assumption; congruence.
Qed.

Lemma profile_is_sound_witness :
  exists h token decoded row,
    authorization (Sample.get_with "/api/user/profile" (Some "Bearer p1")) = Some h
    /\ startsWith h "Bearer " = true
    /\ nth_error (split " " h) 1 = Some token
    /\ jwt_verify (Crypto := Sample.crypto) token "marine_mentors_secret_2025" 1000
       = inr decoded
    /\ In row (users Sample.alice_db)
    /\ userId decoded = Some (user_id row)
    /\ is_active row = Some true
    /\ member "user"
         (json (fst (Full.profile (crypto := Sample.crypto)
                       (Sample.get_with "/api/user/profile" (Some "Bearer p1"))
                       (Sample.world Sample.alice_db []))))
       = Some (profile_row row)
    /\ member "password_hash" (profile_row row) = None
    /\ db (snd (Full.profile (crypto := Sample.crypto)
                  (Sample.get_with "/api/user/profile" (Some "Bearer p1"))
                  (Sample.world Sample.alice_db [])))
       = Sample.alice_db.
Proof.
  apply (profile_is_sound (crypto := Sample.crypto)
           (Sample.get_with "/api/user/profile" (Some "Bearer p1"))
           (Sample.world Sample.alice_db [])).
  reflexivity.
Defined.

Lemma split_first_piece (t rest : string) :
  no_space t = true ->
  split " " (t ++ " " ++ rest) = t :: split " " rest.
Proof.
  induction t as [| ch t IH]; simpl; [reflexivity |].
  intros H. apply andb_prop in H. destruct H as [Hc Ht].
  apply negb_true_iff in Hc. rewrite Hc.
  change (String " " rest) with (" " ++ rest).
  rewrite (IH Ht). reflexivity.
Qed.

(** The handler takes as token the text between the first and the second
    space of the header: whatever follows a second space is ignored, and
    the request is served as if it were not there. *)
Theorem profile_ignores_text_after_token
    {crypto : Crypto} (req req' : Request) (w : World) (t extra : string) :
  no_space t = true ->
  authorization req = Some ("Bearer " ++ t) ->
  authorization req' = Some ("Bearer " ++ t ++ " " ++ extra) ->
  Full.profile req' w = Full.profile req w.
Proof.
  intros Ht Hreq Hreq'.
  assert (Htoken' : nth_error (split " " ("Bearer " ++ t ++ " " ++ extra)) 1 = Some t).
  { simpl. change (String " " extra) with (" " ++ extra).
    rewrite (split_first_piece t extra Ht). reflexivity. }
  unfold Full.profile, try_catch, bind. cbv zeta.
  rewrite Hreq, Hreq', !bearer_accepted, Htoken', (bearer_token t Ht).
  reflexivity.
Qed.

Lemma profile_ignores_text_after_token_witness :
  Full.profile (crypto := Sample.crypto)
    (Sample.get_with "/api/user/profile" (Some "Bearer p1 and more"))
    (Sample.world Sample.alice_db [])
  = Full.profile (crypto := Sample.crypto)
      (Sample.get_with "/api/user/profile" (Some "Bearer p1"))
      (Sample.world Sample.alice_db []).
Proof.
  apply (profile_ignores_text_after_token (crypto := Sample.crypto)
           (Sample.get_with "/api/user/profile" (Some "Bearer p1"))
           (Sample.get_with "/api/user/profile" (Some "Bearer p1 and more"))
           (Sample.world Sample.alice_db []) "p1" "and more");
    reflexivity.
Defined.

(** ** Only a registration writes *)

Lemma login_reads_only {crypto : Crypto} (v : Variant) (req : Request) (w : World) :
  db (snd (login v req w)) = db w.
Proof.
  destruct w as [c dflt d t fs tr].
  destruct v; unfold login, Minimal.login, Basic.login, Full.login,
    try_catch, bind, pool_query, reading, bcryptCompare, jwtSign, emit, ret, throw;
    cbv zeta; simpl faults; simpl db;
    try destruct (Full.missing_credentials (body req));
    destruct fs as [| [e1|] fs]; simpl; try reflexivity;
    match goal with
    | |- context [select_user_by_email ?p ?d] =>
        destruct (select_user_by_email p d) as [| row rest]
    | |- context [select_active_user_by_email ?p ?d] =>
        destruct (select_active_user_by_email p d) as [| row rest]
    end; simpl; try reflexivity;
    destruct (password (body req)) as [| | pw | num | flag | items | members];
    destruct (password_hash row) as [h |]; simpl; try reflexivity;
    destruct (bcrypt_compare pw h); reflexivity.
Qed.

Lemma courses_reads_only (v : Variant) (req : Request) (w : World) :
  db (snd (courses_handler v req w)) = db w.
Proof.
  destruct w as [c dflt d t fs tr].
  destruct v; unfold courses_handler, Minimal.courses_handler,
    Basic.courses_handler, Full.courses_handler, try_catch, bind, pool_query,
    reading, ret; simpl faults;
    destruct fs as [| [e1|] fs]; reflexivity.
Qed.

Lemma profile_reads_only {crypto : Crypto} (req : Request) (w : World) :
  db (snd (Full.profile req w)) = db w.
Proof.
  destruct w as [c dflt d t fs tr].
  unfold Full.profile, try_catch, bind. cbv zeta.
  destruct (Full.no_bearer (authorization req)); [reflexivity |].
  unfold jwtVerify, bind, emit, throw.
  destruct (match authorization req with
            | Some h => nth_error (split " " h) 1
            | None => None
            end) as [token |]; [| reflexivity].
  simpl config. simpl now.
  destruct (jwt_verify token (JWT_SECRET c) t) as [e | decoded]; [reflexivity |].
  unfold pool_query, reading, ret. simpl faults.
  destruct fs as [| [e1|] fs]; simpl; try reflexivity;
    destruct (select_profile_by_id (userId decoded) d); reflexivity.
Qed.

Lemma admin_and_test_db_read_only (req : Request) (w : World) :
  db (snd (Full.admin_users req w)) = db w
  /\ db (snd (Full.test_db req w)) = db w
  /\ db (snd (Basic.test_db req w)) = db w.
Proof.
  destruct w as [c dflt d t fs tr].
  unfold Full.admin_users, Full.test_db, Basic.test_db, try_catch, bind,
    pool_query, reading, ret, throw; simpl faults.
  destruct fs as [| [e1|] [| [e2|] fs]]; repeat split.
Qed.

Lemma find_route_found {framework : Framework} (table : list Route) (req : Request)
    (r : Route) :
  find_route table req = Some r ->
  In r table /\ handles (route_method r) (method req) = true.
Proof.
  induction table as [| x rest IH]; simpl; [discriminate |].
  destruct (handles (route_method x) (method req)
            && route_match (route_path x) (path req)) eqn:Hx.
  - intros H. injection H as <-. apply andb_prop in Hx. tauto.
  - intros H. destruct (IH H). tauto.
Qed.

(** Whatever the request, the variant and the store's faults, the
    application changes the database only by serving a POST through the
    registration handler, and then only by appending one row to [users];
    every other route (login, courses, profile, admin listing, health,
    connectivity test, catch-all) leaves the database as it was. *)
Theorem only_registration_writes
    {crypto : Crypto} {framework : Framework}
    (v : Variant) (req : Request) (w : World) :
  db (snd (app v req w)) = db w
  \/ (method req = POST
      /\ exists row,
           users (db (snd (app v req w))) = (users (db w) ++ [row])%list
           /\ courses (db (snd (app v req w))) = courses (db w)).
Proof.
  unfold app.
  destruct (match method req with OPTIONS => true | _ => false end) eqn:Hopt.
  { destruct (method req); try discriminate Hopt. left. reflexivity. }
  assert (Hrouted :
            snd (match method req with
                 | OPTIONS => (Preflight, w)
                 | _ => match find_route (routes v) req with
                        | Some r => let '(res, w') := route_handler r req w in
                                    (respond (method req) res, w')
                        | None => (Unhandled, w)
                        end
                 end)
            = match find_route (routes v) req with
              | Some r => snd (route_handler r req w)
              | None => w
              end).
  { destruct (method req); try discriminate Hopt;
      destruct (find_route (routes v) req) as [r |]; try reflexivity;
      destruct (route_handler r req w); reflexivity. }
  rewrite Hrouted. clear Hrouted Hopt.
  destruct (find_route (routes v) req) as [r |] eqn:Hfind; [| left; reflexivity].
  destruct (find_route_found _ _ _ Hfind) as [Hin Hhandles].
  assert (Hregister :
            forall u : Variant,
              route_method r = POST ->
              route_handler r = register u ->
              db (snd (route_handler r req w)) = db w
              \/ (method req = POST
                  /\ exists row,
                       users (db (snd (route_handler r req w)))
                       = (users (db w) ++ [row])%list
                       /\ courses (db (snd (route_handler r req w)))
                          = courses (db w))).
  { intros u Hm Hh. rewrite Hm in Hhandles. rewrite Hh.
    destruct (register_outcome u req w) as [(Hok & _) | (_ & Hdb & _)];
      [right | left; exact Hdb].
    split; [destruct (method req); try discriminate Hhandles; reflexivity |].
    destruct (register_succeeded u req w Hok) as (pw & _ & _ & _ & _ & Hdb & _).
    exists (new_row u (body req) pw w). rewrite Hdb. split; reflexivity. }
  destruct v; simpl in Hin;
    repeat (destruct Hin as [<- | Hin];
            [ first [ left; reflexivity
                    | left; apply (login_reads_only minimal)
                    | left; apply (login_reads_only basic)
                    | left; apply (login_reads_only full)
                    | left; apply (courses_reads_only minimal)
                    | left; apply (courses_reads_only basic)
                    | left; apply (courses_reads_only full)
                    | left; apply profile_reads_only
                    | left; apply (proj1 (admin_and_test_db_read_only req w))
                    | left; apply (proj1 (proj2 (admin_and_test_db_read_only req w)))
                    | left; apply (proj2 (proj2 (admin_and_test_db_read_only req w)))
                    | apply (Hregister minimal); reflexivity
                    | apply (Hregister basic); reflexivity
                    | apply (Hregister full); reflexivity ] |]);
    contradiction.
Qed.

(** ** The admin listing *)

Lemma by_registration_date_desc_total (a b : UserRow) :
  by_registration_date_desc a b = false -> by_registration_date_desc b a = true.
Proof.
  unfold by_registration_date_desc.
  destruct (registration_date a) as [x |], (registration_date b) as [y |];
    try reflexivity; try discriminate.
  intros H. apply Z.leb_gt in H. apply Z.leb_le. lia.
Qed.

Lemma by_registration_date_desc_trans (a b c : UserRow) :
  by_registration_date_desc a b = true ->
  by_registration_date_desc b c = true ->
  by_registration_date_desc a c = true.
Proof.
  unfold by_registration_date_desc.
  destruct (registration_date a) as [x |], (registration_date b) as [y |],
    (registration_date c) as [z |]; try reflexivity; try discriminate.
  intros H1 H2. apply Z.leb_le in H1, H2. apply Z.leb_le. lia.
Qed.

Lemma select_all_users_newest_first (d : Db) :
  StronglySorted newest_first (select_all_users d).
Proof.
  unfold select_all_users.
  assert (H : StronglySorted (ordered by_registration_date_desc)
                (sort_by by_registration_date_desc (users d))).
  { apply sort_by_ordered.
    - exact by_registration_date_desc_total.
    - exact by_registration_date_desc_trans. }
  induction H as [| a l Hs IH Hall]; constructor; [exact IH |].
  apply Forall_impl with (P := ordered by_registration_date_desc a); [| exact Hall].
  intros b. unfold ordered, by_registration_date_desc, newest_first.
  destruct (registration_date a) as [x |], (registration_date b) as [y |];
    try discriminate; try (intros _; exact I).
  intros Hb. apply Z.leb_le. exact Hb.
Qed.

(** The admin listing, whoever asks (the handler reads no header): when
    the query meets no store fault it returns every row of [users], each
    once, rows without a registration date first and then the latest
    first, with [total] their number; the row objects have no
    [password_hash] member and the database is unchanged. *)
Theorem admin_lists_all_users (req : Request) (w : World) :
  next_fault w = None ->
  exists rows,
    fst (Full.admin_users req w)
    = reply_ok [("success", VBool true);
                ("users", VArr (map admin_row rows));
                ("total", VNum (Z.of_nat (List.length (users (db w)))))]
    /\ Permutation rows (users (db w))
    /\ StronglySorted newest_first rows
    /\ (forall r, member "password_hash" (admin_row r) = None)
    /\ db (snd (Full.admin_users req w)) = db w.
Proof.
  intros Hfault.
  exists (select_all_users (db w)).
  unfold Full.admin_users, try_catch, bind.
  rewrite pool_query_runs by exact Hfault. rewrite reading_result.
  simpl fst. simpl snd. simpl db at 1.
  assert (Hperm : Permutation (select_all_users (db w)) (users (db w)))
    by apply sort_by_permutation.
  rewrite (Permutation_length Hperm).
  split; [reflexivity | split; [exact Hperm | split; [| split]]].
  - apply select_all_users_newest_first.
  - intros r. reflexivity.
  - destruct w; reflexivity.
Qed.

Lemma admin_lists_all_users_witness :
  exists rows,
    fst (Full.admin_users (Sample.get_with "/api/admin/users" None)
           (Sample.world Sample.alice_db []))
    = reply_ok [("success", VBool true);
                ("users", VArr (map admin_row rows));
                ("total", VNum 1)]
    /\ Permutation rows (users Sample.alice_db)
    /\ StronglySorted newest_first rows
    /\ (forall r, member "password_hash" (admin_row r) = None)
    /\ db (snd (Full.admin_users (Sample.get_with "/api/admin/users" None)
                  (Sample.world Sample.alice_db [])))
       = Sample.alice_db.
Proof.
  apply (admin_lists_all_users (Sample.get_with "/api/admin/users" None)
           (Sample.world Sample.alice_db [])).
  reflexivity.
Defined.

(** ** Requests without a password or without an email *)



(** What a login with a password that is not a string is answered. *)
Lemma login_non_string_status
    {crypto : Crypto} (v : Variant) (req : Request) (w : World) :
  (forall s, password (body req) <> FStr s) ->
  (v = full -> Full.missing_credentials (body req) = false) ->
  next_fault w = None ->
  status (fst (login v req w))
  = match find_user v (sql_param (email (body req))) (db w) with
    | [] => match v with full => 401 | _ => 400 end
    | _ :: _ => 500
    end.
Proof.
  intros Hpw Hvalid Hfault.
  destruct v; simpl find_user;
    unfold login, Minimal.login, Basic.login, Full.login, try_catch, bind;
    cbv zeta;
    try rewrite (Hvalid eq_refl);
    rewrite pool_query_runs by assumption; rewrite reading_result;
    simpl fst; simpl snd; simpl db at 1;
    match goal with
    | |- context [select_user_by_email ?p ?d] =>
        destruct (select_user_by_email p d) as [| row rest]
    | |- context [select_active_user_by_email ?p ?d] =>
        destruct (select_active_user_by_email p d) as [| row rest]
    end; try reflexivity;
    unfold bcryptCompare, bind, emit, throw;
    (destruct (password (body req)) as [| | pw | num | flag | items | members];
     [| | contradiction (Hpw pw); reflexivity | | | |]);
    destruct (password_hash row); reflexivity.
Qed.

(** A login whose password is not a string tells whether the email is
    known, in every variant.  [Full] first answers 400 when the email
    or the password is missing or falsy; past that check, and in
    [Minimal] and [Basic] always, an unknown email is answered 400 (401
    in [Full]) and a known one 500, because [bcrypt.compare] rejects the
    value only once a row was found. *)
Theorem login_with_non_string_password
    {crypto : Crypto} (v : Variant) (req : Request) (w : World) :
  (forall s, password (body req) <> FStr s) ->
  next_fault w = None ->
  status (fst (login v req w))
  = if match v with
       | full => Full.missing_credentials (body req)
       | _ => false
       end
    then 400
    else match find_user v (sql_param (email (body req))) (db w) with
         | [] => match v with full => 401 | _ => 400 end
         | _ :: _ => 500
         end.
Proof.
  intros Hpw Hfault.
  destruct v.
  - apply (login_non_string_status minimal req w Hpw); [discriminate | exact Hfault].
  - apply (login_non_string_status basic req w Hpw); [discriminate | exact Hfault].
  - destruct (Full.missing_credentials (body req)) eqn:Hmiss.
    + unfold login, Full.login, try_catch. cbv zeta. rewrite Hmiss. reflexivity.
    + apply (login_non_string_status full req w Hpw); [| exact Hfault].
      intros _. exact Hmiss.
Qed.

Lemma login_with_non_string_password_witness :
  status (fst (login (crypto := Sample.crypto) full
                 (Sample.post "/api/auth/login" (Sample.numeric_password "a@x.com"))
                 (Sample.world Sample.alice_db []))) = 500
  /\ status (fst (login (crypto := Sample.crypto) full
                    (Sample.post "/api/auth/login"
                       (Sample.numeric_password "nobody@x.com"))
                    (Sample.world Sample.alice_db []))) = 401
  /\ status (fst (login (crypto := Sample.crypto) basic
                    (Sample.post "/api/auth/login" Sample.only_email)
                    (Sample.world Sample.alice_db []))) = 500
  /\ status (fst (login (crypto := Sample.crypto) full
                    (Sample.post "/api/auth/login" Sample.only_email)
                    (Sample.world Sample.alice_db []))) = 400.
Proof.
  split; [| split; [| split]].
  - apply (login_with_non_string_password (crypto := Sample.crypto) full
             (Sample.post "/api/auth/login" (Sample.numeric_password "a@x.com"))
             (Sample.world Sample.alice_db []));
      [intros s; discriminate | reflexivity].
  - apply (login_with_non_string_password (crypto := Sample.crypto) full
             (Sample.post "/api/auth/login" (Sample.numeric_password "nobody@x.com"))
             (Sample.world Sample.alice_db []));
      [intros s; discriminate | reflexivity].
  - apply (login_with_non_string_password (crypto := Sample.crypto) basic
             (Sample.post "/api/auth/login" Sample.only_email)
             (Sample.world Sample.alice_db []));
      [intros s; discriminate | reflexivity].
  - apply (login_with_non_string_password (crypto := Sample.crypto) full
             (Sample.post "/api/auth/login" Sample.only_email)
             (Sample.world Sample.alice_db []));
      [intros s; discriminate | reflexivity].
Defined.

(** C2 fails on the login handler.  In every variant, take a login whose
    email matches no user and a login whose email matches a user, and
    let the password of the second be a JSON value that is not a string
    (truthy, in [Full], so that it passes the check for a missing
    password): the first is answered 400 (401 in [Full]) with the generic
    error, the second 500 "Login failed", because [bcrypt.compare] throws
    on the value once a row was found.  The two failure causes are told
    apart by the status alone. *)
Theorem login_failure_cause_leaks
    {crypto : Crypto} (v : Variant) (req1 req2 : Request) (w1 w2 : World)
    (row : UserRow) (rest : list UserRow) :
  (forall s, password (body req2) <> FStr s) ->
  (v = full -> Full.missing_credentials (body req1) = false
               /\ Full.missing_credentials (body req2) = false) ->
  next_fault w1 = None ->
  next_fault w2 = None ->
  find_user v (sql_param (email (body req1))) (db w1) = [] ->
  find_user v (sql_param (email (body req2))) (db w2) = row :: rest ->
  status (fst (login v req1 w1)) = match v with full => 401 | _ => 400 end
  /\ status (fst (login v req2 w2)) = 500
  /\ fst (login v req1 w1) <> fst (login v req2 w2).
Proof.
  intros Hpw Hvalid Hfault1 Hfault2 Hnone Hsome.
  assert (H2 : status (fst (login v req2 w2)) = 500).
  { rewrite (login_non_string_status v req2 w2 Hpw); [| | exact Hfault2].
    - rewrite Hsome. reflexivity.
    - intros Hv. exact (proj2 (Hvalid Hv)). }
  assert (H1 : status (fst (login v req1 w1))
               = match v with full => 401 | _ => 400 end).
  { destruct v; simpl in Hnone;
      unfold login, Minimal.login, Basic.login, Full.login, try_catch, bind;
      cbv zeta;
      try rewrite (proj1 (Hvalid eq_refl));
      rewrite pool_query_runs by assumption; rewrite reading_result;
      simpl fst; simpl snd; simpl db at 1; rewrite Hnone; reflexivity. }
  split; [exact H1 | split; [exact H2 |]].
  intros Heq. rewrite Heq, H2 in H1. destruct v; discriminate H1.
Qed.

Lemma login_failure_cause_leaks_witness :
  status (fst (login (crypto := Sample.crypto) full
                 (Sample.post "/api/auth/login"
                    (Sample.numeric_password "nobody@x.com"))
                 (Sample.world Sample.alice_db []))) = 401
  /\ status (fst (login (crypto := Sample.crypto) full
                    (Sample.post "/api/auth/login"
                       (Sample.numeric_password "a@x.com"))
                    (Sample.world Sample.alice_db []))) = 500
  /\ fst (login (crypto := Sample.crypto) full
            (Sample.post "/api/auth/login" (Sample.numeric_password "nobody@x.com"))
            (Sample.world Sample.alice_db []))
     <> fst (login (crypto := Sample.crypto) full
               (Sample.post "/api/auth/login" (Sample.numeric_password "a@x.com"))
               (Sample.world Sample.alice_db [])).
Proof.
  apply (login_failure_cause_leaks (crypto := Sample.crypto) full
           (Sample.post "/api/auth/login" (Sample.numeric_password "nobody@x.com"))
           (Sample.post "/api/auth/login" (Sample.numeric_password "a@x.com"))
           (Sample.world Sample.alice_db []) (Sample.world Sample.alice_db [])
           Sample.alice_row []).
  - intros s. discriminate.
  - intros _. split; reflexivity.
  - reflexivity.
  - reflexivity.
  - reflexivity.
  - reflexivity.
Defined.

(** The response to the known email at that input, in full. *)
Example login_numeric_password_known_email :
  fst (login (crypto := Sample.crypto) full
         (Sample.post "/api/auth/login" (Sample.numeric_password "a@x.com"))
         (Sample.world Sample.alice_db []))
  = reply 500 [("success", VBool false);
               ("error", VStr "Login failed: Illegal arguments: number, string")].
Proof. reflexivity. Qed.




(** ** What the error responses disclose *)

(** In [Full], no response of the registration handler has a [details]
    member unless [NODE_ENV] is [development].  When the store rejects
    the existence query of a complete request, the 500 response carries
    the message of the rejection in every environment, and its stack in
    [development] only. *)
Theorem register_error_disclosure
    {crypto : Crypto} (req : Request) (w : World) :
  (Full.development (config w) = false ->
   member "details" (json (fst (Full.register req w))) = None)
  /\ (forall e,
        next_fault w = Some e ->
        Full.missing_fields (body req) = false ->
        status (fst (Full.register req w)) = 500
        /\ error_of (fst (Full.register req w))
           = Some (VStr ("Registration failed: " ++ message e))
        /\ member "details" (json (fst (Full.register req w)))
           = if Full.development (config w) then Some (VStr (stack e)) else None).
Proof.
  split.
  - destruct w as [c dflt d t fs tr]. simpl config. intros Hdev.
    unfold Full.register, try_catch, bind, pool_query, reading, bcryptHash,
      jwtSign, emit, ret, throw; cbv zeta; simpl faults; simpl db.
    destruct (Full.missing_fields (body req)); [reflexivity |].
    destruct fs as [| [e1|] [| [e2|] fs]]; simpl;
      try destruct (0 <? List.length _)%nat; simpl;
      destruct (password (body req)) as [| | pw | num | flag | items | members]; simpl;
      rewrite ?Hdev; reflexivity.
  - intros e Hfault Hfields.
    unfold Full.register, try_catch, bind. cbv zeta.
    rewrite Hfields, (pool_query_fails _ _ _ e) by exact Hfault.
    simpl. destruct w as [c dflt d t fs tr]; simpl.
    destruct (Full.development c); repeat split.
Qed.

Lemma register_error_disclosure_witness :
  member "details"
    (json (fst (Full.register (crypto := Sample.crypto)
                  (Sample.post "/api/auth/register" Sample.alice)
                  (Sample.world Sample.empty_db [Some (Error "connect ECONNREFUSED")]))))
  = None
  /\ error_of (fst (Full.register (crypto := Sample.crypto)
                      (Sample.post "/api/auth/register" Sample.alice)
                      (Sample.world Sample.empty_db
                         [Some (Error "connect ECONNREFUSED")])))
     = Some (VStr "Registration failed: connect ECONNREFUSED").
Proof.
  split.
  - apply (proj1 (register_error_disclosure (crypto := Sample.crypto)
                    (Sample.post "/api/auth/register" Sample.alice)
                    (Sample.world Sample.empty_db
                       [Some (Error "connect ECONNREFUSED")]))).
    reflexivity.
  - apply (proj2 (register_error_disclosure (crypto := Sample.crypto)
                    (Sample.post "/api/auth/register" Sample.alice)
                    (Sample.world Sample.empty_db
                       [Some (Error "connect ECONNREFUSED")]))
             (Error "connect ECONNREFUSED")); reflexivity.
Defined.

(** ** The calls a login and a profile request make *)

(** The external calls of a login are an initial part of: the user
    lookup, [bcrypt.compare], [jwt.sign].  So the password is compared
    only after a row was found, a token is signed only after the
    comparison, and a successful login makes all three calls. *)
Theorem login_calls_in_order
    {crypto : Crypto} (v : Variant) (req : Request) (w : World) :
  (exists n,
      trace (snd (login v req w)) = (trace w ++ firstn n (login_calls v))%list)
  /\ (succeeded (fst (login v req w)) ->
      trace (snd (login v req w)) = (trace w ++ login_calls v)%list).
Proof.
  unfold succeeded.
  destruct w as [c dflt d t fs tr].
  destruct v; unfold login, Minimal.login, Basic.login, Full.login,
    try_catch, bind, pool_query, reading, bcryptCompare, jwtSign, emit, ret, throw;
    cbv zeta; simpl faults; simpl db;
    try destruct (Full.missing_credentials (body req));
    destruct fs as [| [e1|] fs]; simpl;
    try match goal with
      | |- context [select_user_by_email ?p ?d] =>
          destruct (select_user_by_email p d) as [| row rest]
      | |- context [select_active_user_by_email ?p ?d] =>
          destruct (select_active_user_by_email p d) as [| row rest]
      end; simpl;
    try (destruct (password (body req)) as [| | pw | num | flag | items | members];
         destruct (password_hash row) as [h |]; simpl;
         try destruct (bcrypt_compare pw h); simpl);
    (split;
     [ first [ exists 0%nat; simpl; rewrite app_nil_r; reflexivity
             | exists 1%nat; rewrite <- ?app_assoc; reflexivity
             | exists 2%nat; rewrite <- ?app_assoc; reflexivity
             | exists 3%nat; rewrite <- ?app_assoc; reflexivity ]
     | first [ discriminate | intros _; rewrite <- ?app_assoc; reflexivity ] ]).
Qed.

Lemma login_calls_in_order_witness :
  trace (snd (login (crypto := Sample.crypto) full
                (Sample.post "/api/auth/login" (Sample.credentials "a@x.com" "pw"))
                (Sample.world Sample.alice_db [])))
  = [EvQuery SelectActiveUserByEmail; EvBcryptCompare; EvJwtSign].
Proof.
  apply (proj2 (login_calls_in_order (crypto := Sample.crypto) full
                  (Sample.post "/api/auth/login" (Sample.credentials "a@x.com" "pw"))
                  (Sample.world Sample.alice_db []))).
  reflexivity.
Defined.

(** The profile handler queries the store only for a token that
    [jwt.verify] accepted: its external calls are an initial part of
    [jwt.verify], the user lookup, and when the lookup was sent the
    header started with [Bearer ] and the token verified. *)
Theorem profile_queries_after_verification
    {crypto : Crypto} (req : Request) (w : World) :
  (exists n,
      trace (snd (Full.profile req w)) = (trace w ++ firstn n profile_calls)%list)
  /\ (trace (snd (Full.profile req w)) = (trace w ++ profile_calls)%list ->
      exists h token decoded,
        authorization req = Some h
        /\ startsWith h "Bearer " = true
        /\ nth_error (split " " h) 1 = Some token
        /\ jwt_verify token (JWT_SECRET (config w)) (now w) = inr decoded).
Proof.
  destruct w as [c dflt d t fs tr].
  unfold Full.profile, try_catch, bind. cbv zeta.
  assert (Hshort : forall l : list Event, l = (l ++ profile_calls)%list -> False).
  { intros l H. apply (f_equal (@List.length Event)) in H.
    rewrite length_app in H. simpl in H. lia. }
  assert (Hone : forall l : list Event,
             (l ++ [EvJwtVerify])%list = (l ++ profile_calls)%list -> False).
  { intros l H. apply (f_equal (@List.length Event)) in H.
    rewrite !length_app in H. simpl in H. lia. }
  destruct (authorization req) as [h |] eqn:Hh.
  2: { simpl. split; [exists 0%nat; simpl; rewrite app_nil_r; reflexivity |].
       intros H. destruct (Hshort _ H). }
  destruct (Full.no_bearer (Some h)) eqn:Hb.
  { simpl. split; [exists 0%nat; simpl; rewrite app_nil_r; reflexivity |].
    intros H. destruct (Hshort _ H). }
  unfold jwtVerify, bind, emit, throw.
  destruct (nth_error (split " " h) 1) as [token |] eqn:Ht.
  2: { simpl. split; [exists 1%nat; reflexivity |].
       intros H. destruct (Hone _ H). }
  simpl config. simpl now.
  destruct (jwt_verify token (JWT_SECRET c) t) as [e | decoded] eqn:Hv.
  { simpl. split; [exists 1%nat; reflexivity |].
    intros H. destruct (Hone _ H). }
  assert (Hprefix : startsWith h "Bearer " = true).
  { unfold Full.no_bearer in Hb. apply orb_false_elim in Hb.
    destruct Hb as [_ Hb]. apply negb_false_iff in Hb. exact Hb. }
  unfold pool_query, reading, ret. simpl faults.
  destruct fs as [| [e1|] fs]; simpl;
    try destruct (select_profile_by_id (userId decoded) d); simpl;
    (split; [exists 2%nat; simpl; rewrite <- app_assoc; reflexivity |];
     intros _; exists h, token, decoded; repeat split; assumption).
Qed.

Lemma profile_queries_after_verification_witness :
  exists h token decoded,
    authorization (Sample.get_with "/api/user/profile" (Some "Bearer p1")) = Some h
    /\ startsWith h "Bearer " = true
    /\ nth_error (split " " h) 1 = Some token
    /\ jwt_verify (Crypto := Sample.crypto) token "marine_mentors_secret_2025" 1000
       = inr decoded.
Proof.
  apply (proj2 (profile_queries_after_verification (crypto := Sample.crypto)
                  (Sample.get_with "/api/user/profile" (Some "Bearer p1"))
                  (Sample.world Sample.alice_db []))).
  reflexivity.
Defined.

(** ** Routing by method *)



Lemma register_all_or_nothing_witness :
  succeeded (fst (register (crypto := Sample.crypto) full
                    (Sample.post "/api/auth/register" Sample.alice)
                    (Sample.world Sample.empty_db [None; Some (Error "deadlock detected")])))
  \/ db (snd (register (crypto := Sample.crypto) full
                (Sample.post "/api/auth/register" Sample.alice)
                (Sample.world Sample.empty_db
                   [None; Some (Error "deadlock detected")])))
     = Sample.empty_db
     /\ status (fst (register (crypto := Sample.crypto) full
                       (Sample.post "/api/auth/register" Sample.alice)
                       (Sample.world Sample.empty_db
                          [None; Some (Error "deadlock detected")]))) = 500.
Proof.
  destruct (register_all_or_nothing (crypto := Sample.crypto) full
              (Sample.post "/api/auth/register" Sample.alice)
              (Sample.world Sample.empty_db
                 [None; Some (Error "deadlock detected")]))
    as [(Hok & _) | (_ & Hdb & _)].
  - left. exact Hok.
  - right. split; [exact Hdb | reflexivity].
Defined.
